(** * Hetzner Cloud server scaler: a shallow embedding of [rescale.py]

    The script talks to three parties: the operator (one line read at the
    confirmation prompt), the provider's REST API (HTTP replies) and the
    wall clock.  None of them is under the script's control, so they are
    modelled as oracles collected in [Env]; the script itself is a
    deterministic program in a small state-and-error monad whose state
    records how many oracle answers were consumed and the trace of
    every effect performed so far.

    Clock readings are exact rationals (seconds); Python's floats are
    abstracted to them.  The [while True] loop of [wait_for_server_status]
    is a fuel-indexed fixpoint; running out of fuel is a distinct outcome,
    never confused with a result of the script. *)

From Stdlib Require Import ZArith QArith Lia List Bool Ascii String.
From stdpp Require Import base strings pretty.
Import ListNotations.

Local Open Scope string_scope.
Local Open Scope list_scope.

(** ** HTTP vocabulary *)

Inductive Method := GET | POST.

(** The [json=] payload of [change_server_type]:
    [{"server_type": ..., "upgrade_disk": ...}]. *)
Record Payload := mkPayload {
  p_server_type : string;
  p_upgrade_disk : bool
}.

Record Request := mkRequest {
  rq_method : Method;
  rq_url : string;
  rq_headers : list (string * string);
  rq_json : option Payload
}.

(** A [requests.Response].  [server_status] stands for the evaluation of
    [response.json()["server"]["status"]]: [None] when that expression
    raises (body is not JSON, or a key is missing). *)
Record Response := mkResponse {
  status_code : Z;
  text : string;
  server_status : option string
}.

(** What [requests.get]/[requests.post] come back with: a response, or an
    exception of the transport (connection refused, DNS, ...). *)
Inductive Reply :=
| Responded (r : Response)
| TransportFailure.

(** ** Effects, as they appear in the trace *)

Inductive Event :=
| Print (line : string)                       (* print(line) *)
| Write (s : string)                          (* sys.stdout.write(s) *)
| Flush                                       (* sys.stdout.flush() *)
| Input (prompt : string) (answer : option string)   (* input(prompt) *)
| Http (rq : Request) (rp : Reply)            (* requests.get / requests.post *)
| Time (t : Q)                                (* time.time() *)
| Sleep (d : Q).                              (* time.sleep(d) *)

(** ** The environment *)

Record Env := mkEnv {
  (* the line typed at the confirmation prompt; [None] when stdin is closed *)
  operator : option string;
  (* the reply to the n-th HTTP request of the run (counting from 0) *)
  provider : nat -> Reply;
  (* the n-th reading of [time.time()] of the run (counting from 0) *)
  wall_clock : nat -> Q
}.

Record State := mkState {
  requests : nat;          (* HTTP requests sent so far *)
  reads : nat;             (* clock readings taken so far *)
  trace : list Event       (* effects so far, oldest first *)
}.

Definition init : State := mkState 0 0 [].

(** ** Outcomes and the monad *)

Inductive Exn :=
| EOFError            (* input() on a closed stdin *)
| RequestException    (* raised by requests.get / requests.post *)
| JSONError           (* response.json()["server"]["status"] raised *)
| NoSectionError      (* config.get on a section that does not exist *)
| NoOptionError       (* config.get on an option that does not exist *)
| ValueError          (* config.getboolean on a non-boolean value *)
| OtherError (cls : string).  (* any other exception, by the name of its class *)

Inductive Outcome (A : Type) :=
| Ret (a : A)                        (* normal completion *)
| Exit (code : Z) (stderr : string)  (* SystemExit reaching the top level *)
| Raise (e : Exn)                    (* uncaught exception *)
| OutOfFuel.                         (* the model's loop budget ran out *)
Arguments Ret {A} a.
Arguments Exit {A} code stderr.
Arguments Raise {A} e.
Arguments OutOfFuel {A}.

Definition M (A : Type) : Type := State -> Outcome A * State.

Definition ret {A} (a : A) : M A := fun st => (Ret a, st).

Definition bind {A B} (m : M A) (k : A -> M B) : M B :=
  fun st =>
    match m st with
    | (Ret a, st') => k a st'
    | (Exit c s, st') => (Exit c s, st')
    | (Raise e, st') => (Raise e, st')
    | (OutOfFuel, st') => (OutOfFuel, st')
    end.

Declare Scope prog_scope.
Delimit Scope prog_scope with prog.
Bind Scope prog_scope with M.
Notation "x <- m ;; k" := (bind m (fun x => k))
  (at level 100, m at next level, k at level 200, right associativity) : prog_scope.
Notation "m ;; k" := (bind m (fun _ => k))
  (at level 100, k at level 200, right associativity) : prog_scope.
Local Open Scope prog_scope.

Definition raise {A} (e : Exn) : M A := fun st => (Raise e, st).
Definition out_of_fuel {A} : M A := fun st => (OutOfFuel, st).

(** [sys.exit(msg)] with a string argument: the message goes to stderr and
    the process exit status is 1. *)
Definition sys_exit {A} (msg : string) : M A := fun st => (Exit 1 msg, st).

(** The exit status of the process, when the run ends. *)
Definition exit_status (o : Outcome unit) : option Z :=
  match o with
  | Ret _ => Some 0%Z
  | Exit c _ => Some c
  | Raise _ => Some 1%Z
  | OutOfFuel => None
  end.

Definition emit (e : Event) (st : State) : State :=
  mkState (requests st) (reads st) (trace st ++ [e]).

Definition print (line : string) : M unit := fun st => (Ret tt, emit (Print line) st).
Definition stdout_write (s : string) : M unit := fun st => (Ret tt, emit (Write s) st).
Definition stdout_flush : M unit := fun st => (Ret tt, emit Flush st).
Definition sleep (d : Q) : M unit := fun st => (Ret tt, emit (Sleep d) st).

(** ** Python string helpers *)

(** [str.lower] on one character (ASCII letters). *)
Definition lower_ascii (c : ascii) : ascii :=
  let n := nat_of_ascii c in
  if (65 <=? n)%nat && (n <=? 90)%nat then ascii_of_nat (n + 32) else c.

Fixpoint lower (s : string) : string :=
  match s with
  | EmptyString => EmptyString
  | String c s' => String (lower_ascii c) (lower s')
  end.

(** The backspace character, ["\b"]. *)
Definition backspace : string := String (ascii_of_nat 8) EmptyString.
(** The line feed, ["\n"]. *)
Definition newline : string := String (ascii_of_nat 10) EmptyString.

(** [a > b] on clock values. *)
Definition Qgtb (a b : Q) : bool := negb (Qle_bool a b).

(** ** The script *)

(** The module-level globals that [main] and its helpers read. *)
Record Settings := mkSettings {
  api_key : string;
  server_id : string;
  server_type : string;
  upgrade_disk : bool
}.

Definition base_url : string := "https://api.hetzner.cloud/v1".

(** [f"Error {response.status_code}: {response.text}"] *)
Definition error_report (r : Response) : string :=
  "Error " +:+ pretty (status_code r) +:+ ": " +:+ text r.

(** The generator [spinner()]: its state is the number of frames already
    yielded; [next(spin)] yields the frames of ["|/-\\"] in a cycle. *)
Definition spinner_frames : list string := ["|"; "/"; "-"; "\"].
Definition spinner_frame (spin : nat) : string :=
  nth (spin mod 4) spinner_frames "".

Section Script.
Variable env : Env.
Variable cfg : Settings.

Definition headers : list (string * string) :=
  [("Authorization", "Bearer " +:+ api_key cfg);
   ("Content-Type", "application/json")].

(** *** Primitive effects answered by the environment *)

Definition http (rq : Request) : M Response := fun st =>
  let rp := provider env (requests st) in
  let st' := mkState (S (requests st)) (reads st) (trace st ++ [Http rq rp]) in
  match rp with
  | Responded r => (Ret r, st')
  | TransportFailure => (Raise RequestException, st')
  end.

Definition requests_get (url : string) (hdrs : list (string * string)) : M Response :=
  http (mkRequest GET url hdrs None).

Definition requests_post (url : string) (hdrs : list (string * string))
    (json : option Payload) : M Response :=
  http (mkRequest POST url hdrs json).

Definition time_time : M Q := fun st =>
  let t := wall_clock env (reads st) in
  (Ret t, mkState (requests st) (S (reads st)) (trace st ++ [Time t])).

Definition input (prompt : string) : M string := fun st =>
  let st' := emit (Input prompt (operator env)) st in
  match operator env with
  | Some answer => (Ret answer, st')
  | None => (Raise EOFError, st')
  end.

(** [response.json()["server"]["status"]] *)
Definition json_server_status (response : Response) : M string :=
  match server_status response with
  | Some s => ret s
  | None => raise JSONError
  end.

(** *** The functions of [rescale.py] *)

Definition get_server (server_id : string) : M Response :=
  requests_get (base_url +:+ "/servers/" +:+ server_id) headers.

Definition server_action (server_id action : string) : M Response :=
  requests_post (base_url +:+ "/servers/" +:+ server_id +:+ "/actions/" +:+ action)
                headers None.

Definition change_server_type (server_id server_type : string) (upgrade_disk : bool)
    : M Response :=
  let payload := mkPayload server_type upgrade_disk in
  requests_post (base_url +:+ "/servers/" +:+ server_id +:+ "/actions/change_type")
                headers (Some payload).

(** The [while True] loop of [wait_for_server_status]; [spin] is the
    state of the spinner generator. *)
Fixpoint wait_loop (fuel : nat) (server_id status : string) (status_code0 : Z)
    (timeout start_time : Q) (spin : nat) : M bool :=
  match fuel with
  | O => out_of_fuel
  | S fuel' =>
    let next_round : M bool :=
      now <- time_time ;;
      if Qgtb (now - start_time) timeout then
        print "Timed out waiting for server status change." ;;
        ret false
      else
        stdout_write (backspace +:+ spinner_frame spin) ;;
        stdout_flush ;;
        sleep 1 ;;
        wait_loop fuel' server_id status status_code0 timeout start_time (S spin)
    in
    response <- get_server server_id ;;
    if (status_code response =? status_code0)%Z then
      server_status <- json_server_status response ;;
      if String.eqb server_status status then
        stdout_write (backspace +:+ " " +:+ newline) ;;
        ret true
      else next_round
    else
      print (error_report response) ;;
      ret false
  end.

Definition wait_for_server_status (fuel : nat) (server_id status : string)
    (status_code0 : Z) (timeout : Q) : M bool :=
  start_time <- time_time ;;
  wait_loop fuel server_id status status_code0 timeout start_time 0.

(** Returns [Some b] for the Python boolean [b], [None] for Python's [None]. *)
Definition server_is_running (server_id : string) : M (option bool) :=
  response <- get_server server_id ;;
  if (status_code response =? 200)%Z then
    server_status <- json_server_status response ;;
    ret (Some (String.eqb server_status "running"))
  else
    print (error_report response) ;;
    ret None.

Definition stop_server (fuel : nat) (server_id : string) : M bool :=
  stop_response <- server_action server_id "poweroff" ;;
  if (status_code stop_response =? 201)%Z then
    print "Server stopping..." ;;
    stopped <- wait_for_server_status fuel server_id "off" 200 300 ;;
    if stopped then
      print "Server stopped successfully." ;;
      print "Waiting 5 seconds before proceeding." ;;
      sleep 5 ;;
      ret true
    else
      print "Failed to stop server." ;;
      ret false
  else
    print (error_report stop_response) ;;
    ret false.

Definition scale_server (server_id server_type : string) (upgrade_disk : bool) : M bool :=
  change_response <- change_server_type server_id server_type upgrade_disk ;;
  if (status_code change_response =? 201)%Z then
    print ("Server scaling to " +:+ server_type +:+ " started successfully.") ;;
    ret true
  else
    print (error_report change_response) ;;
    ret false.

Definition confirmation_prompt : string :=
  "Do you want to proceed with scaling the server to " +:+ server_type cfg +:+ "? (y/n): ".

Definition main (fuel : nat) : M unit :=
  print "The server will be stopped if it is already running, to rescale it." ;;
  confirm <- input confirmation_prompt ;;
  (if negb (String.eqb (lower confirm) "y") then sys_exit "Aborted." else ret tt) ;;
  running <- server_is_running (server_id cfg) ;;
  match running with
  | None =>
      print "Error occurred while checking server's running status." ;;
      sys_exit "Aborted."
  | Some true =>
      print "Server is currently running." ;;
      stopped <- stop_server fuel (server_id cfg) ;;
      if negb stopped then sys_exit "Aborted." else ret tt
  | Some false =>
      print "Server is not running."
  end ;;
  scaled <- scale_server (server_id cfg) (server_type cfg) (upgrade_disk cfg) ;;
  if negb scaled then sys_exit "Aborted."
  else
    print "Waiting for server to boot." ;;
    booted <- wait_for_server_status fuel (server_id cfg) "running" 200 300 ;;
    if negb booted then sys_exit "Failed to restart rescaled server."
    else print "Rescaled server now accessible".

End Script.

(** A whole run of [main] from a fresh process. *)
Definition run (env : Env) (cfg : Settings) (fuel : nat) : Outcome unit * State :=
  main env cfg fuel init.


(** ** The module-level code: command line and configuration file *)

(** The options given on the command line: [None] for an option that is
    absent, [true] for the flag [--upgrade_disk] when it is present. *)
Record CommandLine := mkCommandLine {
  cl_config : option string;
  cl_api_key : option string;
  cl_server_id : option string;
  cl_server_type : option string;
  cl_upgrade_disk : bool
}.

(** The namespace returned by [parser.parse_args()]. *)
Record Args := mkArgs {
  a_config : string;
  a_api_key : option string;        (* [None] is Python's [None] *)
  a_server_id : option string;
  a_server_type : string;
  a_upgrade_disk : bool
}.

Definition server_type_choices : list string :=
  ["cpx11"; "cpx21"; "cpx31"; "cpx41"; "cpx51"].
Definition server_type_default : string := "cpx11".

(** Sequencing of the module-level statements: the first failure ends the
    process. *)
Definition and_then {A B} (o : Outcome A) (k : A -> Outcome B) : Outcome B :=
  match o with
  | Ret a => k a
  | Exit c msg => Exit c msg
  | Raise e => Raise e
  | OutOfFuel => OutOfFuel
  end.

(** [parser.parse_args()] for the parser the script builds: defaults for
    [--config] and [--server_type], [choices] for [--server_type] (argparse
    reports an invalid choice and exits with status 2), [store_true] for
    [--upgrade_disk]. *)
Definition parse_args (cl : CommandLine) : Outcome Args :=
  let config := default "config.ini" (cl_config cl) in
  match cl_server_type cl with
  | None =>
      Ret (mkArgs config (cl_api_key cl) (cl_server_id cl) server_type_default
             (cl_upgrade_disk cl))
  | Some ty =>
      if existsb (String.eqb ty) server_type_choices then
        Ret (mkArgs config (cl_api_key cl) (cl_server_id cl) ty (cl_upgrade_disk cl))
      else Exit 2 "argument --server_type: invalid choice"
  end.

(** The script reads its file through [configparser].  The library is not
    part of the program: its answers are taken as they come, a value or
    an exception, like the replies of the provider.
    [config_get c section option] is [c.get(section, option)] and
    [config_getboolean c section option b] is
    [c.getboolean(section, option, fallback=b)]. *)
Record ConfigParser := mkConfigParser {
  config_get : string -> string -> Exn + string;
  config_getboolean : string -> string -> bool -> Exn + bool
}.

(** A call of the library among the module-level statements: an
    exception it raises is not caught. *)
Definition call {A} (r : Exn + A) : Outcome A :=
  match r with
  | inl e => Raise e
  | inr a => Ret a
  end.

(** [a or b] for an optional string [a]: [b] is evaluated only when [a] is
    [None] or empty. *)
Definition str_or (a : option string) (b : Outcome string) : Outcome string :=
  match a with
  | Some s => if String.eqb s "" then b else Ret s
  | None => b
  end.

(** The statements of the script between the construction of the parser
    and the definition of the functions: they set the globals.
    [config_read path] is the parser [config] once [config.read(path)]
    has returned, or the exception the library raises on a file it cannot
    parse. *)
Definition load (config_read : string -> Exn + ConfigParser)
    (cl : CommandLine) : Outcome Settings :=
  and_then (parse_args cl) (fun args =>
  and_then (call (config_read (a_config args))) (fun config =>
  and_then (str_or (a_api_key args) (call (config_get config "hetzner" "api_key")))
    (fun api_key =>
  and_then (str_or (a_server_id args) (call (config_get config "hetzner" "server_id")))
    (fun server_id =>
  let server_type := a_server_type args in
  and_then (if a_upgrade_disk args then Ret true
            else call (config_getboolean config "hetzner" "upgrade_disk" false))
    (fun upgrade_disk =>
  Ret (mkSettings api_key server_id server_type upgrade_disk)))))).

Module ConfigSamples.

(** The parser that has read a file holding the one section
    [[hetzner]] with [api_key = file-key], [server_id = 7],
    [server_type = cpx51] and [upgrade_disk = no]. *)
Definition hetzner : ConfigParser :=
  mkConfigParser
    (fun section key =>
       if String.eqb section "hetzner" then
         if String.eqb (lower key) "api_key" then inr "file-key"
         else if String.eqb (lower key) "server_id" then inr "7"
         else if String.eqb (lower key) "server_type" then inr "cpx51"
         else if String.eqb (lower key) "upgrade_disk" then inr "no"
         else inl NoOptionError
       else if String.eqb section "DEFAULT" then inl NoOptionError
       else inl NoSectionError)
    (fun section key fallback =>
       if String.eqb section "hetzner" then
         if String.eqb (lower key) "upgrade_disk" then inr false
         else if String.eqb (lower key) "api_key" then inl ValueError
         else if String.eqb (lower key) "server_id" then inl ValueError
         else if String.eqb (lower key) "server_type" then inl ValueError
         else inr fallback
       else inr fallback).

(** The parser that has read nothing: the library passes over a file
    that does not exist. *)
Definition nothing : ConfigParser :=
  mkConfigParser
    (fun section key =>
       if String.eqb section "DEFAULT" then inl NoOptionError
       else inl NoSectionError)
    (fun section key fallback => inr fallback).

(** A directory whose only file is that [config.ini]. *)
Definition files (path : string) : Exn + ConfigParser :=
  if String.eqb path "config.ini" then inr hetzner else inr nothing.

Definition all_given : CommandLine :=
  mkCommandLine None (Some "cli-key") (Some "42") (Some "cpx21") true.

(** [--api_key "" --server_id 42 --server_type cpx21 --upgrade_disk] *)
Definition empty_key : CommandLine :=
  mkCommandLine None (Some "") (Some "42") (Some "cpx21") true.

End ConfigSamples.

(** ** Vocabulary for statements about runs *)

Definition get_request (cfg : Settings) (id : string) : Request :=
  mkRequest GET (base_url +:+ "/servers/" +:+ id) (headers cfg) None.

Definition action_request (cfg : Settings) (id action : string) : Request :=
  mkRequest POST (base_url +:+ "/servers/" +:+ id +:+ "/actions/" +:+ action)
            (headers cfg) None.

Definition change_type_request (cfg : Settings) (id ty : string) (disk : bool) : Request :=
  mkRequest POST (base_url +:+ "/servers/" +:+ id +:+ "/actions/change_type")
            (headers cfg) (Some (mkPayload ty disk)).

(** An event of plain polling: anything but a request, or a fetch of the
    server [id].  In particular not a POST, so nothing that changes the
    state of the provider (the actions poweroff, poweron, reboot and
    change_type are all POSTs under [/actions/]). *)
Definition quiet (cfg : Settings) (id : string) (e : Event) : Prop :=
  match e with
  | Http rq _ => rq = get_request cfg id
  | _ => True
  end.

(** The reply to request number [rq] is a response with code [code] that
    reports [status]. *)
Definition reports (env : Env) (status : string) (code : Z) (rq : nat) : bool :=
  match provider env rq with
  | Responded r =>
      (status_code r =? code)%Z &&
      match server_status r with
      | Some s => String.eqb s status
      | None => false
      end
  | TransportFailure => false
  end.

(** The reply to request number [rq] is a response with code 201. *)
Definition accepts (env : Env) (rq : nat) : bool :=
  match provider env rq with
  | Responded r => (status_code r =? 201)%Z
  | TransportFailure => false
  end.

(** One round of the polling loop that neither succeeds nor fails: request
    number [rq] is answered with code [code] and a status other than
    [status], and clock reading number [rd] is within [timeout] of
    [start]. *)
Definition pending (env : Env) (status : string) (code : Z) (timeout start : Q)
    (rq rd : nat) : bool :=
  match provider env rq with
  | Responded r =>
      (status_code r =? code)%Z &&
      match server_status r with
      | Some s => negb (String.eqb s status)
      | None => false
      end &&
      negb (Qgtb (wall_clock env rd - start) timeout)
  | TransportFailure => false
  end.

(** [n] such rounds in a row, from request [rq] and reading [rd] on. *)
Fixpoint still_waiting (env : Env) (status : string) (code : Z) (timeout start : Q)
    (rq rd n : nat) : bool :=
  match n with
  | O => true
  | S n' => pending env status code timeout start rq rd &&
            still_waiting env status code timeout start (S rq) (S rd) n'
  end.

(** The events of such a round, and of [n] of them. *)
Definition poll_round (env : Env) (cfg : Settings) (id : string) (rq rd spin : nat)
    : list Event :=
  [Http (get_request cfg id) (provider env rq);
   Time (wall_clock env rd);
   Write (backspace +:+ spinner_frame spin);
   Flush;
   Sleep 1].

Fixpoint poll_rounds (env : Env) (cfg : Settings) (id : string) (rq rd spin n : nat)
    : list Event :=
  match n with
  | O => []
  | S n' => poll_round env cfg id rq rd spin ++
            poll_rounds env cfg id (S rq) (S rd) (S spin) n'
  end.

(** The round in which the time budget is found exhausted: the fetch is
    as in a pending round, but the clock reading is more than [timeout]
    after [start]. *)
Definition overdue (env : Env) (status : string) (code : Z) (timeout start : Q)
    (rq rd : nat) : bool :=
  match provider env rq with
  | Responded r =>
      (status_code r =? code)%Z &&
      match server_status r with
      | Some s => negb (String.eqb s status)
      | None => false
      end &&
      Qgtb (wall_clock env rd - start) timeout
  | TransportFailure => false
  end.

(** The events [evs] of a wait end with a fetch that was answered with
    code [code] and status [status], and the clearing of the spinner. *)
Definition observed (cfg : Settings) (id status : string) (code : Z)
    (evs : list Event) : Prop :=
  exists mid r,
    evs = mid ++ [Http (get_request cfg id) (Responded r);
                  Write (backspace +:+ " " +:+ newline)] /\
    status_code r = code /\ server_status r = Some status.

(** What every run of the polling loop has in common, whatever the
    environment does and however much fuel there is: it only appends
    events, all of them plain polling; it never exits the process; and
    when it returns [True] the last fetch was answered with the expected
    code and reported the awaited status. *)
Definition framed (cfg : Settings) (id status : string) (code : Z)
    (st : State) (res : Outcome bool * State) : Prop :=
  exists evs,
    trace (snd res) = trace st ++ evs /\
    Forall (quiet cfg id) evs /\
    (fst res = Ret true -> observed cfg id status code evs) /\
    (forall c msg, fst res <> Exit c msg).

(** The events of a wait entered after [rq] requests and [rd] clock
    readings that goes through [n] pending rounds and then ends with the
    events [last]. *)
Definition wait_events (env : Env) (cfg : Settings) (id : string)
    (rq rd n : nat) (last : list Event) : list Event :=
  Time (wall_clock env rd) :: poll_rounds env cfg id rq (S rd) 0 n ++ last.

(** A fetch that was answered with the expected code and a status other
    than the awaited one is the last event of [pre]. *)
Definition after_unmatched_fetch (cfg : Settings) (id status : string) (code : Z)
    (pre : list Event) : Prop :=
  exists pre' r s,
    pre = pre' ++ [Http (get_request cfg id) (Responded r)] /\
    status_code r = code /\ server_status r = Some s /\ s <> status.

(** ** The shape of every run

    The three inductive predicates below list, phase by phase, the traces
    the script can leave behind and the outcome that goes with each.
    They mention no fuel and no environment: every run, however the
    operator, the provider and the clock behave, is one of these. *)

Definition intro_line : string :=
  "The server will be stopped if it is already running, to rescale it.".

Definition started_line (cfg : Settings) : string :=
  "Server scaling to " +:+ server_type cfg +:+ " started successfully.".

(** No fetch among [evs] was answered with code [code] and status
    [status]. *)
Definition unseen (status : string) (code : Z) (evs : list Event) : Prop :=
  forall pre rq r post,
    evs = pre ++ Http rq (Responded r) :: post ->
    status_code r = code -> server_status r = Some status -> False.

(** Every fetch among [evs] that was answered with code [code] and status
    [status] is followed by the clearing of the spinner and nothing else. *)
Definition settled (status : string) (code : Z) (evs : list Event) : Prop :=
  forall pre rq r post,
    evs = pre ++ Http rq (Responded r) :: post ->
    status_code r = code -> server_status r = Some status ->
    post = [Write (backspace +:+ " " +:+ newline)].

Section Shapes.
Variable cfg : Settings.

Let fetch := get_request cfg (server_id cfg).
Let poweroff := action_request cfg (server_id cfg) "poweroff".
Let change_type :=
  change_type_request cfg (server_id cfg) (server_type cfg) (upgrade_disk cfg).

(** [stop_server]: its result and the events it appends. *)
Inductive Stopping : Outcome bool -> list Event -> Prop :=
| stop_no_reply :
    Stopping (Raise RequestException) [Http poweroff TransportFailure]
| stop_rejected r :
    status_code r <> 201%Z ->
    Stopping (Ret false) [Http poweroff (Responded r); Print (error_report r)]
| stop_done r evs :
    status_code r = 201%Z ->
    Forall (quiet cfg (server_id cfg)) evs ->
    observed cfg (server_id cfg) "off" 200 evs ->
    settled "off" 200 evs ->
    Stopping (Ret true)
      ([Http poweroff (Responded r); Print "Server stopping..."] ++ evs ++
       [Print "Server stopped successfully.";
        Print "Waiting 5 seconds before proceeding.";
        Sleep 5])
| stop_failed r evs :
    status_code r = 201%Z ->
    Forall (quiet cfg (server_id cfg)) evs ->
    unseen "off" 200 evs ->
    Stopping (Ret false)
      ([Http poweroff (Responded r); Print "Server stopping..."] ++ evs ++
       [Print "Failed to stop server."])
| stop_raised r evs e :
    status_code r = 201%Z ->
    Forall (quiet cfg (server_id cfg)) evs ->
    unseen "off" 200 evs ->
    Stopping (Raise e)
      ([Http poweroff (Responded r); Print "Server stopping..."] ++ evs)
| stop_unfinished r evs :
    status_code r = 201%Z ->
    Forall (quiet cfg (server_id cfg)) evs ->
    unseen "off" 200 evs ->
    Stopping OutOfFuel
      ([Http poweroff (Responded r); Print "Server stopping..."] ++ evs).

(** The rest of [main] from the call of [scale_server] on. *)
Inductive Resizing : Outcome unit -> list Event -> Prop :=
| resize_no_reply :
    Resizing (Raise RequestException) [Http change_type TransportFailure]
| resize_rejected r :
    status_code r <> 201%Z ->
    Resizing (Exit 1 "Aborted.")
      [Http change_type (Responded r); Print (error_report r)]
| resize_booted r evs :
    status_code r = 201%Z ->
    Forall (quiet cfg (server_id cfg)) evs ->
    observed cfg (server_id cfg) "running" 200 evs ->
    settled "running" 200 evs ->
    Resizing (Ret tt)
      ([Http change_type (Responded r); Print (started_line cfg);
        Print "Waiting for server to boot."] ++ evs ++
       [Print "Rescaled server now accessible"])
| resize_boot_failed r evs :
    status_code r = 201%Z ->
    Forall (quiet cfg (server_id cfg)) evs ->
    unseen "running" 200 evs ->
    Resizing (Exit 1 "Failed to restart rescaled server.")
      ([Http change_type (Responded r); Print (started_line cfg);
        Print "Waiting for server to boot."] ++ evs)
| resize_boot_raised r evs e :
    status_code r = 201%Z ->
    Forall (quiet cfg (server_id cfg)) evs ->
    unseen "running" 200 evs ->
    Resizing (Raise e)
      ([Http change_type (Responded r); Print (started_line cfg);
        Print "Waiting for server to boot."] ++ evs)
| resize_boot_unfinished r evs :
    status_code r = 201%Z ->
    Forall (quiet cfg (server_id cfg)) evs ->
    unseen "running" 200 evs ->
    Resizing OutOfFuel
      ([Http change_type (Responded r); Print (started_line cfg);
        Print "Waiting for server to boot."] ++ evs).

(** How a stop that did not return [True] ends the run. *)
Definition stop_ends (o : Outcome bool) : Outcome unit :=
  match o with
  | Ret _ => Exit 1 "Aborted."
  | Exit c msg => Exit c msg
  | Raise e => Raise e
  | OutOfFuel => OutOfFuel
  end.

(** [main]. *)
Inductive Run : Outcome unit -> list Event -> Prop :=
| run_no_answer :
    Run (Raise EOFError)
      [Print intro_line; Input (confirmation_prompt cfg) None]
| run_declined a :
    lower a <> "y" ->
    Run (Exit 1 "Aborted.")
      [Print intro_line; Input (confirmation_prompt cfg) (Some a)]
| run_check_no_reply a :
    lower a = "y" ->
    Run (Raise RequestException)
      [Print intro_line; Input (confirmation_prompt cfg) (Some a);
       Http fetch TransportFailure]
| run_check_failed a r :
    lower a = "y" ->
    status_code r <> 200%Z ->
    Run (Exit 1 "Aborted.")
      [Print intro_line; Input (confirmation_prompt cfg) (Some a);
       Http fetch (Responded r); Print (error_report r);
       Print "Error occurred while checking server's running status."]
| run_check_garbled a r :
    lower a = "y" ->
    status_code r = 200%Z ->
    server_status r = None ->
    Run (Raise JSONError)
      [Print intro_line; Input (confirmation_prompt cfg) (Some a);
       Http fetch (Responded r)]
| run_not_running a r s o evs :
    lower a = "y" ->
    status_code r = 200%Z ->
    server_status r = Some s ->
    s <> "running" ->
    Resizing o evs ->
    Run o
      ([Print intro_line; Input (confirmation_prompt cfg) (Some a);
        Http fetch (Responded r); Print "Server is not running."] ++ evs)
| run_stop_ends a r o evs :
    lower a = "y" ->
    status_code r = 200%Z ->
    server_status r = Some "running" ->
    Stopping o evs ->
    o <> Ret true ->
    Run (stop_ends o)
      ([Print intro_line; Input (confirmation_prompt cfg) (Some a);
        Http fetch (Responded r); Print "Server is currently running."] ++ evs)
| run_stopped a r evs o evs' :
    lower a = "y" ->
    status_code r = 200%Z ->
    server_status r = Some "running" ->
    Stopping (Ret true) evs ->
    Resizing o evs' ->
    Run o
      ([Print intro_line; Input (confirmation_prompt cfg) (Some a);
        Http fetch (Responded r); Print "Server is currently running."] ++
       evs ++ evs').

End Shapes.

(** [main] from the call of [scale_server] on. *)
Definition resize_phase (env : Env) (cfg : Settings) (fuel : nat) : M unit :=
  scaled <- scale_server env cfg (server_id cfg) (server_type cfg) (upgrade_disk cfg) ;;
  if negb scaled then sys_exit "Aborted."
  else
    print "Waiting for server to boot." ;;
    booted <- wait_for_server_status env cfg fuel (server_id cfg) "running" 200 300 ;;
    if negb booted then sys_exit "Failed to restart rescaled server."
    else print "Rescaled server now accessible".

(** ** Remote calls and pauses of a run *)

Inductive Step :=
| Call (rq : Request)       (* an HTTP request was sent *)
| Pause (d : Q).            (* the script slept for [d] seconds *)

Fixpoint steps_of (tr : list Event) : list Step :=
  match tr with
  | [] => []
  | Http rq _ :: tr' => Call rq :: steps_of tr'
  | Sleep d :: tr' => Pause d :: steps_of tr'
  | _ :: tr' => steps_of tr'
  end.

(** [n] rounds of polling: a fetch, then a pause of one second. *)
Fixpoint polling (rq : Request) (n : nat) : list Step :=
  match n with
  | O => []
  | S n' => Call rq :: Pause 1 :: polling rq n'
  end.

(** ** Sample environments, for instances of the theorems *)

Module Samples.

Definition cfg : Settings := mkSettings "secret" "42" "cpx21" false.

Definition reports_status (s : string) : Reply :=
  Responded (mkResponse 200 "{...}" (Some s)).
Definition accepted : Reply :=
  Responded (mkResponse 201 "{...}" None).
Definition unavailable : Reply :=
  Responded (mkResponse 503 "Service Unavailable" None).
Definition unprocessable : Reply :=
  Responded (mkResponse 422 "server type unavailable" None).

(** The provider gives the listed replies in order, then [last] for ever. *)
Definition script (replies : list Reply) (last : Reply) : nat -> Reply :=
  fun n => nth n replies last.

(** A clock whose [n]-th reading is [n * step] seconds. *)
Definition ticking (step : Z) : nat -> Q :=
  fun n => inject_Z (Z.of_nat n * step).

(** A server that is running, stops after one poll and is back after
    one poll. *)
Definition cooperative (answer : string) : Env :=
  mkEnv (Some answer)
    (script [reports_status "running"; accepted;
             reports_status "stopping"; reports_status "off"; accepted;
             reports_status "starting"]
            (reports_status "running"))
    (ticking 1).

(** A server that is already off. *)
Definition already_off : Env :=
  mkEnv (Some "y")
    (script [reports_status "off"; accepted; reports_status "starting"]
            (reports_status "running"))
    (ticking 1).

(** A server that accepts the poweroff but never leaves [stopping],
    polled by a slow client: every clock reading is 200 s after the
    previous one. *)
Definition stuck : Env :=
  mkEnv (Some "Y")
    (script [reports_status "running"; accepted] (reports_status "stopping"))
    (ticking 200).

(** A provider that refuses the poweroff. *)
Definition refusing : Env :=
  mkEnv (Some "y")
    (script [reports_status "running"] unprocessable)
    (ticking 1).

(** A provider whose API fails on the second poll of a wait. *)
Definition flaky : Env :=
  mkEnv (Some "y")
    (script [reports_status "starting"; unavailable] (reports_status "running"))
    (ticking 1).

End Samples.

(** ** The anatomy of a wait *)

(** How a wait ends: its result and its last events.  [start] is the
    clock reading taken on entry. *)
Inductive Ending (cfg : Settings) (id status : string) (code : Z) (timeout start : Q)
  : Outcome bool -> list Event -> Prop :=
| end_seen r :
    status_code r = code ->
    server_status r = Some status ->
    Ending cfg id status code timeout start (Ret true)
      [Http (get_request cfg id) (Responded r);
       Write (backspace +:+ " " +:+ newline)]
| end_failed r :
    status_code r <> code ->
    Ending cfg id status code timeout start (Ret false)
      [Http (get_request cfg id) (Responded r);
       Print (error_report r)]
| end_timed_out r s t :
    status_code r = code ->
    server_status r = Some s ->
    s <> status ->
    Qgtb (t - start) timeout = true ->
    Ending cfg id status code timeout start (Ret false)
      [Http (get_request cfg id) (Responded r);
       Time t;
       Print "Timed out waiting for server status change."]
| end_no_reply :
    Ending cfg id status code timeout start (Raise RequestException)
      [Http (get_request cfg id) TransportFailure]
| end_garbled r :
    status_code r = code ->
    server_status r = None ->
    Ending cfg id status code timeout start (Raise JSONError)
      [Http (get_request cfg id) (Responded r)]
| end_unfinished :
    Ending cfg id status code timeout start OutOfFuel [].

(** ** Requests of a run *)

(** The POST requests of a trace, in the order they were sent. *)
Fixpoint posts_of (tr : list Event) : list Request :=
  match tr with
  | [] => []
  | Http rq _ :: tr' =>
      match rq_method rq with
      | POST => rq :: posts_of tr'
      | GET => posts_of tr'
      end
  | _ :: tr' => posts_of tr'
  end.

(** Further sample environments. *)
Module MoreSamples.

(** The provider's API is down from the first request on. *)
Definition down : Env :=
  mkEnv (Some "y") (Samples.script [] Samples.unavailable) (Samples.ticking 1).

(** The API goes down while the script waits for the server to stop. *)
Definition down_while_stopping : Env :=
  mkEnv (Some "y")
    (Samples.script [Samples.reports_status "running"; Samples.accepted;
                     Samples.reports_status "stopping"]
                    Samples.unavailable)
    (Samples.ticking 1).

(** The server is off, the change of type is accepted, but the server
    never comes back; every clock reading is 200 s after the previous
    one. *)
Definition never_boots : Env :=
  mkEnv (Some "y")
    (Samples.script [Samples.reports_status "off"; Samples.accepted]
                    (Samples.reports_status "starting"))
    (Samples.ticking 200).

(** The server is running and stops at once, the change of type is
    accepted, but the server never comes back; every clock reading is
    200 s after the previous one. *)
Definition stopped_never_boots : Env :=
  mkEnv (Some "y")
    (Samples.script [Samples.reports_status "running"; Samples.accepted;
                     Samples.reports_status "off"; Samples.accepted]
                    (Samples.reports_status "starting"))
    (Samples.ticking 200).

End MoreSamples.

(** What a run has seen when it asks for the change of type. *)
Definition cleared (cfg : Settings) (pre : list Event) : Prop :=
  (exists a r s,
     pre = [Print intro_line; Input (confirmation_prompt cfg) (Some a);
            Http (get_request cfg (server_id cfg)) (Responded r); Print "Server is not running."] /\
     status_code r = 200%Z /\ server_status r = Some s /\ s <> "running") \/
  (exists before r,
     pre = before ++ [Http (get_request cfg (server_id cfg)) (Responded r);
                      Write (backspace +:+ " " +:+ newline);
                      Print "Server stopped successfully.";
                      Print "Waiting 5 seconds before proceeding.";
                      Sleep 5] /\
     status_code r = 200%Z /\ server_status r = Some "off").

(** The two ways a confirmed run gets to the change of type.
    [Arrival env cfg fuel rq rd sent]: when [scale_server] is called,
    [rq] requests have been sent, the clock has been read [rd] times and
    the POSTs sent so far are [sent]. *)
Inductive Arrival (env : Env) (cfg : Settings) (fuel : nat) :
    nat -> nat -> list Request -> Prop :=
| found_not_running r s :
    provider env 0 = Responded r ->
    status_code r = 200%Z ->
    server_status r = Some s ->
    s <> "running" ->
    Arrival env cfg fuel 1 0 []
| stopped_first n :
    reports env "running" 200 0 = true ->
    accepts env 1 = true ->
    still_waiting env "off" 200 300 (wall_clock env 0) 2 1 n = true ->
    reports env "off" 200 (2 + n) = true ->
    (n < fuel)%nat ->
    Arrival env cfg fuel (3 + n) (1 + n)
      [action_request cfg (server_id cfg) "poweroff"].

(** Further sample command lines and files. *)
Module MoreConfigSamples.

(** The parser that has read a file like [ConfigSamples]'s, but with
    [upgrade_disk = maybe], which is not a boolean word. *)
Definition odd_flag : ConfigParser :=
  mkConfigParser
    (fun section key =>
       if String.eqb section "hetzner" then
         if String.eqb (lower key) "upgrade_disk" then inr "maybe"
         else config_get ConfigSamples.hetzner section key
       else config_get ConfigSamples.hetzner section key)
    (fun section key fallback =>
       if String.eqb section "hetzner" then
         if String.eqb (lower key) "upgrade_disk" then inl ValueError
         else config_getboolean ConfigSamples.hetzner section key fallback
       else inr fallback).

Definition odd_files (path : string) : Exn + ConfigParser :=
  if String.eqb path "config.ini" then inr odd_flag else inr ConfigSamples.nothing.

(** Key and id on the command line, nothing else. *)
Definition key_and_id : CommandLine :=
  mkCommandLine None (Some "cli-key") (Some "42") None false.

(** Only the flag on the command line. *)
Definition only_flag : CommandLine :=
  mkCommandLine None None None None true.

End MoreConfigSamples.

(** * Proofs *)

(** ** The polling loop *)

Section Polling.
Variable env : Env.
Variable cfg : Settings.
Variables (id status : string) (code : Z) (timeout start : Q).

Ltac exec :=
  cbn [wait_loop];
  unfold wait_for_server_status, get_server, requests_get, http, time_time,
    json_server_status, print, stdout_write, stdout_flush, sleep, emit,
    bind, ret, raise;
  cbn [requests reads trace fst snd].

Ltac tidy :=
  cbn [requests reads trace fst snd];
  unfold poll_round, get_request;
  rewrite <- ?app_assoc; cbn [app].

Lemma wait_loop_succeeds fuel spin rq rd tr r :
  provider env rq = Responded r ->
  status_code r = code ->
  server_status r = Some status ->
  wait_loop env cfg (S fuel) id status code timeout start spin (mkState rq rd tr)
  = (Ret true,
     mkState (S rq) rd
       (tr ++ [Http (get_request cfg id) (Responded r);
               Write (backspace +:+ " " +:+ newline)])).
Proof.
  intros Hp Hc Hs. exec. rewrite Hp, Hc, Z.eqb_refl, Hs, String.eqb_refl.
  now tidy.
Qed.

Lemma wait_loop_abandons fuel spin rq rd tr r :
  provider env rq = Responded r ->
  status_code r <> code ->
  wait_loop env cfg (S fuel) id status code timeout start spin (mkState rq rd tr)
  = (Ret false,
     mkState (S rq) rd
       (tr ++ [Http (get_request cfg id) (Responded r);
               Print (error_report r)])).
Proof.
  intros Hp Hc. exec. rewrite Hp.
  apply Z.eqb_neq in Hc. rewrite Hc.
  now tidy.
Qed.

Lemma wait_loop_times_out fuel spin rq rd tr :
  overdue env status code timeout start rq rd = true ->
  wait_loop env cfg (S fuel) id status code timeout start spin (mkState rq rd tr)
  = (Ret false,
     mkState (S rq) (S rd)
       (tr ++ [Http (get_request cfg id) (provider env rq);
               Time (wall_clock env rd);
               Print "Timed out waiting for server status change."])).
Proof.
  unfold overdue. intros H. exec.
  destruct (provider env rq) as [r|]; [|discriminate].
  apply andb_prop in H as [H Ht]. apply andb_prop in H as [Hc Hs].
  rewrite Hc.
  destruct (server_status r) as [s|]; [|discriminate].
  apply negb_true_iff in Hs. rewrite Hs. cbn [requests reads trace]. rewrite Ht.
  now tidy.
Qed.

Lemma wait_loop_round fuel spin rq rd tr :
  pending env status code timeout start rq rd = true ->
  wait_loop env cfg (S fuel) id status code timeout start spin (mkState rq rd tr)
  = wait_loop env cfg fuel id status code timeout start (S spin)
      (mkState (S rq) (S rd) (tr ++ poll_round env cfg id rq rd spin)).
Proof.
  unfold pending. intros H. exec.
  destruct (provider env rq) as [r|] eqn:Hp; [|discriminate].
  apply andb_prop in H as [H Ht]. apply andb_prop in H as [Hc Hs].
  destruct (server_status r) as [s|] eqn:Hst; [|discriminate].
  apply negb_true_iff in Hs. apply negb_true_iff in Ht.
  rewrite Hc, Hs. cbn [requests reads trace]. rewrite Ht.
  tidy. now rewrite Hp.
Qed.

Lemma wait_loop_rounds n : forall fuel spin rq rd tr,
  still_waiting env status code timeout start rq rd n = true ->
  wait_loop env cfg (n + fuel) id status code timeout start spin (mkState rq rd tr)
  = wait_loop env cfg fuel id status code timeout start (n + spin)
      (mkState (n + rq) (n + rd) (tr ++ poll_rounds env cfg id rq rd spin n)).
Proof.
  induction n as [|n IH]; intros fuel spin rq rd tr H.
  - cbn. now rewrite app_nil_r.
  - cbn [still_waiting] in H. apply andb_prop in H as [H1 H2].
    change (S n + fuel)%nat with (S (n + fuel)).
    rewrite wait_loop_round by exact H1.
    rewrite IH by exact H2.
    cbn [poll_rounds]. rewrite <- app_assoc.
    now rewrite <- !Nat.add_succ_comm.
Qed.

(** One iteration of the loop, with the resulting state written out. *)
Lemma wait_loop_step fuel spin st :
  wait_loop env cfg (S fuel) id status code timeout start spin st =
  let fetched := trace st ++ [Http (get_request cfg id) (provider env (requests st))] in
  match provider env (requests st) with
  | TransportFailure =>
      (Raise RequestException, mkState (S (requests st)) (reads st) fetched)
  | Responded r =>
      if (status_code r =? code)%Z then
        match server_status r with
        | None => (Raise JSONError, mkState (S (requests st)) (reads st) fetched)
        | Some s =>
            if String.eqb s status then
              (Ret true,
               mkState (S (requests st)) (reads st)
                 (fetched ++ [Write (backspace +:+ " " +:+ newline)]))
            else if Qgtb (wall_clock env (reads st) - start) timeout then
              (Ret false,
               mkState (S (requests st)) (S (reads st))
                 (fetched ++ [Time (wall_clock env (reads st));
                              Print "Timed out waiting for server status change."]))
            else
              wait_loop env cfg fuel id status code timeout start (S spin)
                (mkState (S (requests st)) (S (reads st))
                   (trace st ++ poll_round env cfg id (requests st) (reads st) spin))
        end
      else
        (Ret false,
         mkState (S (requests st)) (reads st) (fetched ++ [Print (error_report r)]))
  end.
Proof.
  exec. destruct (provider env (requests st)) as [r|] eqn:Hp; [|reflexivity].
  destruct (status_code r =? code)%Z; [|reflexivity].
  destruct (server_status r) as [s|]; [|reflexivity].
  destruct (String.eqb s status); [reflexivity|].
  cbn [requests reads trace].
  destruct (Qgtb (wall_clock env (reads st) - start) timeout).
  - now tidy.
  - tidy. now rewrite Hp.
Qed.

Lemma wait_loop_frame fuel : forall spin st,
  framed cfg id status code st
    (wait_loop env cfg fuel id status code timeout start spin st).
Proof.
  unfold framed.
  induction fuel as [|fuel IH]; intros spin st.
  - exists []. cbn. rewrite app_nil_r. repeat split; auto; discriminate.
  - rewrite wait_loop_step. cbv zeta.
    destruct (provider env (requests st)) as [r|] eqn:Hp.
    2:{ eexists. cbn. repeat split; [repeat constructor | discriminate..]. }
    destruct (status_code r =? code)%Z eqn:Hc.
    2:{ eexists. tidy. repeat split; [repeat constructor | discriminate..]. }
    destruct (server_status r) as [s|] eqn:Hs.
    2:{ eexists. cbn. repeat split; [repeat constructor | discriminate..]. }
    destruct (String.eqb s status) eqn:Hst.
    { eexists. tidy. repeat split; [repeat constructor | | discriminate].
      intros _. exists [], r. apply Z.eqb_eq in Hc. apply String.eqb_eq in Hst.
      subst. auto. }
    destruct (Qgtb (wall_clock env (reads st) - start) timeout) eqn:Ht.
    { eexists. tidy. repeat split; [repeat constructor | discriminate..]. }
    destruct (IH (S spin)
                (mkState (S (requests st)) (S (reads st))
                   (trace st ++ poll_round env cfg id (requests st) (reads st) spin)))
      as (evs & Htr & Hq & Hobs & Hex).
    exists (poll_round env cfg id (requests st) (reads st) spin ++ evs).
    rewrite Htr. cbn [trace]. rewrite <- app_assoc. repeat split; auto.
    + apply Forall_app. split; [|exact Hq].
      unfold poll_round. repeat constructor.
    + intros Ht'. destruct (Hobs Ht') as (mid & r' & -> & ? & ?).
      exists (poll_round env cfg id (requests st) (reads st) spin ++ mid), r'.
      rewrite <- app_assoc. auto.
Qed.

End Polling.

(** ** The wait as a whole *)

Section Waiting.
Variable env : Env.
Variable cfg : Settings.
Variables (id status : string) (code : Z) (timeout : Q).

Lemma wait_unfold fuel rq rd tr :
  wait_for_server_status env cfg fuel id status code timeout (mkState rq rd tr)
  = wait_loop env cfg fuel id status code timeout (wall_clock env rd) 0
      (mkState rq (S rd) (tr ++ [Time (wall_clock env rd)])).
Proof. reflexivity. Qed.

Lemma wait_frame fuel st :
  framed cfg id status code st
    (wait_for_server_status env cfg fuel id status code timeout st).
Proof.
  destruct st as [rq rd tr]. rewrite wait_unfold.
  destruct (wait_loop_frame env cfg id status code timeout (wall_clock env rd) fuel 0
              (mkState rq (S rd) (tr ++ [Time (wall_clock env rd)])))
    as (evs & Htr & Hq & Hobs & Hex).
  exists (Time (wall_clock env rd) :: evs). cbn [trace] in *.
  rewrite Htr, <- app_assoc. repeat split; auto.
  - constructor; [exact I | exact Hq].
  - intros H. destruct (Hobs H) as (mid & r & -> & ? & ?).
    now exists (Time (wall_clock env rd) :: mid), r.
Qed.

Lemma wait_rounds n fuel rq rd tr :
  still_waiting env status code timeout (wall_clock env rd) rq (S rd) n = true ->
  wait_for_server_status env cfg (n + fuel) id status code timeout (mkState rq rd tr)
  = wait_loop env cfg fuel id status code timeout (wall_clock env rd) n
      (mkState (rq + n) (S rd + n) (tr ++ wait_events env cfg id rq rd n [])).
Proof.
  intros H. rewrite wait_unfold, wait_loop_rounds by exact H.
  unfold wait_events. rewrite app_nil_r, <- app_assoc, Nat.add_0_r.
  now rewrite (Nat.add_comm n rq), (Nat.add_comm n (S rd)).
Qed.

Lemma wait_succeeds n fuel rq rd tr :
  still_waiting env status code timeout (wall_clock env rd) rq (S rd) n = true ->
  reports env status code (rq + n) = true ->
  (n < fuel)%nat ->
  wait_for_server_status env cfg fuel id status code timeout (mkState rq rd tr)
  = (Ret true,
     mkState (S (rq + n)) (S rd + n)
       (tr ++ wait_events env cfg id rq rd n
                [Http (get_request cfg id) (provider env (rq + n));
                 Write (backspace +:+ " " +:+ newline)])).
Proof.
  intros Hw Hr Hf. replace fuel with (n + S (fuel - S n))%nat by lia.
  rewrite wait_rounds by exact Hw.
  unfold reports in Hr. destruct (provider env (rq + n)) as [r|] eqn:Hp; [|discriminate].
  apply andb_prop in Hr as [Hc Hs]. apply Z.eqb_eq in Hc.
  destruct (server_status r) as [s|] eqn:Hst; [|discriminate].
  apply String.eqb_eq in Hs. subst s.
  rewrite (wait_loop_succeeds env cfg id status code timeout _ _ _ _ _ _ r Hp Hc Hst).
  unfold wait_events. now rewrite app_nil_r, <- !app_assoc.
Qed.

Lemma wait_times_out n fuel rq rd tr :
  still_waiting env status code timeout (wall_clock env rd) rq (S rd) n = true ->
  overdue env status code timeout (wall_clock env rd) (rq + n) (S rd + n) = true ->
  (n < fuel)%nat ->
  wait_for_server_status env cfg fuel id status code timeout (mkState rq rd tr)
  = (Ret false,
     mkState (S (rq + n)) (S (S rd + n))
       (tr ++ wait_events env cfg id rq rd n
                [Http (get_request cfg id) (provider env (rq + n));
                 Time (wall_clock env (S rd + n));
                 Print "Timed out waiting for server status change."])).
Proof.
  intros Hw Ho Hf. replace fuel with (n + S (fuel - S n))%nat by lia.
  rewrite wait_rounds by exact Hw.
  rewrite wait_loop_times_out by exact Ho.
  unfold wait_events. now rewrite app_nil_r, <- !app_assoc.
Qed.

Lemma wait_abandons n fuel rq rd tr r :
  still_waiting env status code timeout (wall_clock env rd) rq (S rd) n = true ->
  provider env (rq + n) = Responded r ->
  status_code r <> code ->
  (n < fuel)%nat ->
  wait_for_server_status env cfg fuel id status code timeout (mkState rq rd tr)
  = (Ret false,
     mkState (S (rq + n)) (S rd + n)
       (tr ++ wait_events env cfg id rq rd n
                [Http (get_request cfg id) (Responded r);
                 Print (error_report r)])).
Proof.
  intros Hw Hp Hc Hf. replace fuel with (n + S (fuel - S n))%nat by lia.
  rewrite wait_rounds by exact Hw.
  rewrite (wait_loop_abandons env cfg id status code timeout _ _ _ _ _ _ r Hp Hc).
  unfold wait_events. now rewrite app_nil_r, <- !app_assoc.
Qed.

End Waiting.

(** ** Termination of the wait

    Fuel is a device of the model.  When the clock advances, that is,
    when the [k]-th reading taken inside the loop is at least [k] seconds
    after the start (each round sleeps one second), the loop returns
    after at most [N + 1] rounds, for any [N] seconds that exceed the
    timeout: with that much fuel it never runs out. *)

Section Termination.
Variable env : Env.
Variable cfg : Settings.
Variables (id status : string) (code : Z) (timeout start : Q).

Lemma wait_loop_returns fuel : forall spin st (b : nat),
  (forall k, inject_Z (Z.of_nat (b + k)) <= wall_clock env (reads st + k) - start)%Q ->
  (timeout < inject_Z (Z.of_nat (b + fuel)))%Q ->
  fst (wait_loop env cfg (S fuel) id status code timeout start spin st) <> OutOfFuel.
Proof.
  induction fuel as [|fuel IH]; intros spin st b Hclock Hlate;
    rewrite wait_loop_step; cbv zeta;
    destruct (provider env (requests st)) as [r|]; try discriminate;
    destruct (status_code r =? code)%Z; try discriminate;
    destruct (server_status r) as [s|]; try discriminate;
    destruct (String.eqb s status); try discriminate;
    destruct (Qgtb (wall_clock env (reads st) - start) timeout) eqn:Ht;
    try discriminate.
  - (* no fuel left for another round: the budget is already exceeded *)
    exfalso. unfold Qgtb in Ht. apply negb_false_iff, Qle_bool_iff in Ht.
    specialize (Hclock 0%nat). rewrite !Nat.add_0_r in *.
    apply (Qlt_irrefl timeout).
    eapply Qlt_le_trans; [exact Hlate|]. eapply Qle_trans; [exact Hclock | exact Ht].
  - apply (IH _ _ (S b)); cbn [reads].
    + intros k. specialize (Hclock (S k)).
      now rewrite <- !Nat.add_succ_comm in Hclock.
    + now rewrite <- Nat.add_succ_comm in Hlate.
Qed.

End Termination.

(** ** Locating an event in a trace *)

Lemma cons_eq_app_cons {A} (a : A) l pre x post :
  a :: l = pre ++ x :: post ->
  (pre = [] /\ a = x /\ l = post) \/
  (exists pre', pre = a :: pre' /\ l = pre' ++ x :: post).
Proof.
  destruct pre as [|b pre]; cbn; intros H; injection H as -> ->; eauto.
Qed.

Lemma nil_eq_app_cons {A} pre (x : A) post : [] = pre ++ x :: post -> False.
Proof. destruct pre; discriminate. Qed.

(** An event that fails [P] is not among a block of events that all
    satisfy [P]: it lies after the block. *)
Lemma skip_block {A} (P : A -> Prop) evs rest pre x post :
  Forall P evs -> ~ P x ->
  evs ++ rest = pre ++ x :: post ->
  exists pre', pre = evs ++ pre' /\ rest = pre' ++ x :: post.
Proof.
  induction evs as [|e evs IH] in pre |- *; intros Hall Hx H.
  - exists pre. auto.
  - inversion Hall as [|? ? He Hevs]; subst.
    cbn in H. apply cons_eq_app_cons in H as [(-> & -> & _) | (pre' & -> & H)].
    + contradiction.
    + destruct (IH pre' Hevs Hx H) as (p & -> & ->). now exists p.
Qed.

(** Walk down a trace whose front is written out, looking for the event
    singled out by a decomposition [H : e1 :: e2 :: ... = pre ++ x :: post]. *)
Ltac walk H :=
  let Hx := fresh "Hx" in
  let Hl := fresh "Hl" in
  let p := fresh "pre" in
  match type of H with
  | [] = _ ++ _ :: _ => destruct (nil_eq_app_cons _ _ _ H)
  | _ :: _ = _ ++ _ :: _ =>
      apply cons_eq_app_cons in H;
      destruct H as [(-> & Hx & Hl) | (p & -> & H)];
      [ try discriminate Hx | walk H ]
  | _ => idtac
  end.

Section PollingRuns.
Variable env : Env.
Variable cfg : Settings.
Variables (id status : string) (code : Z) (timeout start : Q).

(** In any run of the loop, a fetch answered with another code than the
    expected one is followed by the error report and nothing else, and
    the loop returns [False]. *)
Lemma wait_loop_bad_code fuel : forall spin st evs pre rq r post,
  trace (snd (wait_loop env cfg fuel id status code timeout start spin st))
    = trace st ++ evs ->
  evs = pre ++ Http rq (Responded r) :: post ->
  status_code r <> code ->
  fst (wait_loop env cfg fuel id status code timeout start spin st) = Ret false /\
  post = [Print (error_report r)].
Proof.
  induction fuel as [|fuel IH]; intros spin st evs pre rq r post Htr Hev Hc.
  - cbn in Htr. rewrite <- (app_nil_r (trace st)) in Htr at 1.
    apply app_inv_head in Htr. subst evs. destruct (nil_eq_app_cons _ _ _ Hev).
  - rewrite wait_loop_step in Htr |- *. cbv zeta in Htr |- *.
    destruct (provider env (requests st)) as [r0|] eqn:Hp.
    2:{ cbn [snd trace] in Htr. apply app_inv_head in Htr. subst evs. walk Hev. }
    destruct (status_code r0 =? code)%Z eqn:Hc0.
    2:{ cbn [snd trace] in Htr. rewrite <- app_assoc in Htr.
        apply app_inv_head in Htr. subst evs. cbn [app] in Hev. walk Hev.
        injection Hx as <- <-. auto. }
    apply Z.eqb_eq in Hc0.
    destruct (server_status r0) as [s|] eqn:Hs.
    2:{ cbn [snd trace] in Htr. apply app_inv_head in Htr. subst evs. walk Hev.
        injection Hx as <- <-. contradiction. }
    destruct (String.eqb s status) eqn:Hst.
    { cbn [snd trace] in Htr. rewrite <- app_assoc in Htr.
      apply app_inv_head in Htr. subst evs. cbn [app] in Hev. walk Hev.
      injection Hx as <- <-. contradiction. }
    destruct (Qgtb (wall_clock env (reads st) - start) timeout) eqn:Ht.
    { cbn [snd trace] in Htr. rewrite <- app_assoc in Htr.
      apply app_inv_head in Htr. subst evs. cbn [app] in Hev. walk Hev.
      injection Hx as <- <-. contradiction. }
    destruct (wait_loop_frame env cfg id status code timeout start fuel (S spin)
                (mkState (S (requests st)) (S (reads st))
                   (trace st ++ poll_round env cfg id (requests st) (reads st) spin)))
      as (evs' & Htr' & _).
    rewrite Htr' in Htr. cbn [trace] in Htr, Htr'. rewrite <- app_assoc in Htr.
    apply app_inv_head in Htr. subst evs.
    unfold poll_round in Hev. cbn [app] in Hev. rewrite Hp in Hev. walk Hev.
    + injection Hx as <- <-. contradiction.
    + eapply IH; [exact Htr' | exact Hev | exact Hc].
Qed.

(** Likewise, a fetch answered with the expected code and the awaited
    status is followed by the clearing of the spinner and nothing else,
    and the loop returns [True]. *)
Lemma wait_loop_target fuel : forall spin st evs pre rq r post,
  trace (snd (wait_loop env cfg fuel id status code timeout start spin st))
    = trace st ++ evs ->
  evs = pre ++ Http rq (Responded r) :: post ->
  status_code r = code ->
  server_status r = Some status ->
  fst (wait_loop env cfg fuel id status code timeout start spin st) = Ret true /\
  post = [Write (backspace +:+ " " +:+ newline)].
Proof.
  induction fuel as [|fuel IH]; intros spin st evs pre rq r post Htr Hev Hc Hsr.
  - cbn in Htr. rewrite <- (app_nil_r (trace st)) in Htr at 1.
    apply app_inv_head in Htr. subst evs. destruct (nil_eq_app_cons _ _ _ Hev).
  - rewrite wait_loop_step in Htr |- *. cbv zeta in Htr |- *.
    destruct (provider env (requests st)) as [r0|] eqn:Hp.
    2:{ cbn [snd trace] in Htr. apply app_inv_head in Htr. subst evs. walk Hev. }
    destruct (status_code r0 =? code)%Z eqn:Hc0.
    2:{ cbn [snd trace] in Htr. rewrite <- app_assoc in Htr.
        apply app_inv_head in Htr. subst evs. cbn [app] in Hev. walk Hev.
        injection Hx as <- <-. apply Z.eqb_neq in Hc0. contradiction. }
    destruct (server_status r0) as [s|] eqn:Hs.
    2:{ cbn [snd trace] in Htr. apply app_inv_head in Htr. subst evs. walk Hev.
        injection Hx as <- <-. congruence. }
    destruct (String.eqb s status) eqn:Hst.
    { cbn [snd trace] in Htr. rewrite <- app_assoc in Htr.
      apply app_inv_head in Htr. subst evs. cbn [app] in Hev. walk Hev.
      injection Hx as <- <-. auto. }
    apply String.eqb_neq in Hst.
    destruct (Qgtb (wall_clock env (reads st) - start) timeout) eqn:Ht.
    { cbn [snd trace] in Htr. rewrite <- app_assoc in Htr.
      apply app_inv_head in Htr. subst evs. cbn [app] in Hev. walk Hev.
      injection Hx as <- <-. congruence. }
    destruct (wait_loop_frame env cfg id status code timeout start fuel (S spin)
                (mkState (S (requests st)) (S (reads st))
                   (trace st ++ poll_round env cfg id (requests st) (reads st) spin)))
      as (evs' & Htr' & _).
    rewrite Htr' in Htr. cbn [trace] in Htr, Htr'. rewrite <- app_assoc in Htr.
    apply app_inv_head in Htr. subst evs.
    unfold poll_round in Hev. cbn [app] in Hev. rewrite Hp in Hev. walk Hev.
    + injection Hx as <- <-. congruence.
    + eapply IH; [exact Htr' | exact Hev | exact Hc | exact Hsr].
Qed.

End PollingRuns.

Section WaitingRuns.
Variable env : Env.
Variable cfg : Settings.
Variables (id status : string) (code : Z) (timeout : Q).

Lemma wait_bad_code fuel st evs pre rq r post :
  trace (snd (wait_for_server_status env cfg fuel id status code timeout st))
    = trace st ++ evs ->
  evs = pre ++ Http rq (Responded r) :: post ->
  status_code r <> code ->
  fst (wait_for_server_status env cfg fuel id status code timeout st) = Ret false /\
  post = [Print (error_report r)].
Proof.
  destruct st as [rq0 rd tr]. rewrite wait_unfold. cbn [trace].
  intros Htr Hev Hc.
  destruct (wait_loop_frame env cfg id status code timeout (wall_clock env rd) fuel 0
              (mkState rq0 (S rd) (tr ++ [Time (wall_clock env rd)])))
    as (evs' & Htr' & _).
  rewrite Htr' in Htr. cbn [trace] in Htr, Htr'. rewrite <- app_assoc in Htr.
  apply app_inv_head in Htr. subst evs. cbn [app] in Hev. walk Hev.
  eapply wait_loop_bad_code; [exact Htr' | exact Hev | exact Hc].
Qed.

Lemma wait_target fuel st evs pre rq r post :
  trace (snd (wait_for_server_status env cfg fuel id status code timeout st))
    = trace st ++ evs ->
  evs = pre ++ Http rq (Responded r) :: post ->
  status_code r = code ->
  server_status r = Some status ->
  fst (wait_for_server_status env cfg fuel id status code timeout st) = Ret true /\
  post = [Write (backspace +:+ " " +:+ newline)].
Proof.
  destruct st as [rq0 rd tr]. rewrite wait_unfold. cbn [trace].
  intros Htr Hev Hc Hs.
  destruct (wait_loop_frame env cfg id status code timeout (wall_clock env rd) fuel 0
              (mkState rq0 (S rd) (tr ++ [Time (wall_clock env rd)])))
    as (evs' & Htr' & _).
  rewrite Htr' in Htr. cbn [trace] in Htr, Htr'. rewrite <- app_assoc in Htr.
  apply app_inv_head in Htr. subst evs. cbn [app] in Hev. walk Hev.
  eapply wait_loop_target; [exact Htr' | exact Hev | exact Hc | exact Hs].
Qed.

End WaitingRuns.


Section Runs.
Variable env : Env.
Variable cfg : Settings.

Ltac not_seen :=
  match goal with
  | Htg : forall pre rq r post, _ -> _ -> _ -> _ = Ret true /\ _ |- unseen _ _ _ =>
      let E := fresh in let C := fresh in let S := fresh in
      intros ? ? ? ? E C S; discriminate (proj1 (Htg _ _ _ _ E C S))
  | Htg : forall pre rq r post, _ -> _ -> _ -> _ = Ret true /\ _ |- settled _ _ _ =>
      let E := fresh in let C := fresh in let S := fresh in
      intros ? ? ? ? E C S; exact (proj2 (Htg _ _ _ _ E C S))
  end.

Ltac call_wait :=
  match goal with
  | |- context [wait_for_server_status env cfg ?f ?i ?s ?c ?t ?st1] =>
      let evs := fresh "evs" in
      let Htr := fresh "Htr" in
      let Hq := fresh "Hq" in
      let Hobs := fresh "Hobs" in
      let Hex := fresh "Hex" in
      let Htg := fresh "Htg" in
      destruct (wait_frame env cfg i s c t f st1) as (evs & Htr & Hq & Hobs & Hex);
      assert (Htg : forall pre0 rq0 r0 post0,
                 evs = pre0 ++ Http rq0 (Responded r0) :: post0 ->
                 status_code r0 = c -> server_status r0 = Some s ->
                 fst (wait_for_server_status env cfg f i s c t st1) = Ret true /\
                 post0 = [Write (backspace +:+ " " +:+ newline)])
        by (intros pre0 rq0 r0 post0 E0 C0 S0;
            exact (wait_target env cfg i s c t f st1 evs pre0 rq0 r0 post0
                     Htr E0 C0 S0));
      destruct (wait_for_server_status env cfg f i s c t st1) as [[[]|c' m'|e'|] st2];
      cbn [fst snd trace requests reads negb] in *;
      [ specialize (Hobs eq_refl) | | destruct (Hex c' m' eq_refl) | | ];
      rewrite ?Htr, <- ?app_assoc; cbn [app]
  end.

Lemma stop_server_runs fuel st :
  exists evs,
    trace (snd (stop_server env cfg fuel (server_id cfg) st)) = trace st ++ evs /\
    Stopping cfg (fst (stop_server env cfg fuel (server_id cfg) st)) evs.
Proof.
  unfold stop_server, server_action, requests_post, http, print, sleep, emit,
    bind, ret.
  cbn [requests reads trace].
  destruct (provider env (requests st)) as [r|].
  2:{ eexists. split; [reflexivity | constructor]. }
  destruct (status_code r =? 201)%Z eqn:Hc.
  2:{ apply Z.eqb_neq in Hc. cbn [fst snd trace]. rewrite <- app_assoc.
      eexists. split; [reflexivity | now constructor]. }
  apply Z.eqb_eq in Hc.
  call_wait; (eexists; split; [reflexivity|]).
  - apply stop_done; auto; not_seen.
  - apply stop_failed; auto; not_seen.
  - apply stop_raised; auto; not_seen.
  - apply stop_unfinished; auto; not_seen.
Qed.

Lemma resize_phase_runs fuel st :
  exists evs,
    trace (snd (resize_phase env cfg fuel st)) = trace st ++ evs /\
    Resizing cfg (fst (resize_phase env cfg fuel st)) evs.
Proof.
  unfold resize_phase, scale_server, change_server_type, requests_post, http,
    print, sys_exit, emit, bind, ret.
  cbn [requests reads trace].
  destruct (provider env (requests st)) as [r|].
  2:{ eexists. split; [reflexivity | constructor]. }
  destruct (status_code r =? 201)%Z eqn:Hc.
  2:{ apply Z.eqb_neq in Hc. cbn [fst snd trace negb]. rewrite <- app_assoc.
      eexists. split; [reflexivity | now constructor]. }
  apply Z.eqb_eq in Hc. cbn [negb].
  call_wait; (eexists; split; [reflexivity|]).
  - apply resize_booted; auto; not_seen.
  - apply resize_boot_failed; auto; not_seen.
  - apply resize_boot_raised; auto; not_seen.
  - apply resize_boot_unfinished; auto; not_seen.
Qed.

Ltac call_resize :=
  match goal with
  | |- context [resize_phase env cfg ?f ?st1] =>
      let evs := fresh "evs" in
      let Htr := fresh "Htr" in
      let Hr := fresh "Hr" in
      let o := fresh "o" in
      let st' := fresh "st" in
      destruct (resize_phase_runs f st1) as (evs & Htr & Hr);
      destruct (resize_phase env cfg f st1) as [o st'];
      cbn [fst snd trace requests reads] in *;
      rewrite ?Htr, <- ?app_assoc; cbn [app]
  end.

(** Every run of [main] has one of the shapes of [Run]. *)
Lemma main_runs fuel :
  Run cfg (fst (run env cfg fuel)) (trace (snd (run env cfg fuel))).
Proof.
  unfold run, main. fold (resize_phase env cfg fuel).
  unfold server_is_running, get_server, requests_get, http, input,
    json_server_status, sys_exit, print, emit, bind, ret, raise, init.
  cbn [requests reads trace app].
  destruct (operator env) as [a|]; [|constructor].
  destruct (String.eqb (lower a) "y") eqn:Ha; cbn [negb requests reads trace app].
  2:{ apply String.eqb_neq in Ha. now constructor. }
  apply String.eqb_eq in Ha.
  destruct (provider env 0) as [r|]; [|now constructor].
  destruct (status_code r =? 200)%Z eqn:Hc; cbn [requests reads trace app fst snd].
  2:{ apply Z.eqb_neq in Hc. now constructor. }
  apply Z.eqb_eq in Hc.
  destruct (server_status r) as [s|] eqn:Hs; [|now constructor].
  destruct (String.eqb s "running") eqn:Hrun; cbn [requests reads trace app fst snd].
  - apply String.eqb_eq in Hrun. subst s.
    match goal with
    | |- context [stop_server env cfg fuel ?i ?st1] =>
        destruct (stop_server_runs fuel st1) as (evs & Htr & Hst);
        destruct (stop_server env cfg fuel i st1) as [[[]|c m|e|] st2]
    end; cbn [fst snd trace requests reads negb] in *.
    + call_resize. rewrite Htr, <- app_assoc. now apply run_stopped.
    + rewrite Htr. now apply (run_stop_ends cfg a r (Ret false)).
    + rewrite Htr. now apply (run_stop_ends cfg a r (Exit c m)).
    + rewrite Htr. now apply (run_stop_ends cfg a r (Raise e)).
    + rewrite Htr. now apply (run_stop_ends cfg a r OutOfFuel).
  - apply String.eqb_neq in Hrun.
    call_resize. now apply (run_not_running cfg a r s).
Qed.

End Runs.


(** ** The confirmation gate *)

(** The answers that pass the gate: ["y"] and ["Y"], nothing else. *)
Lemma lower_y answer : lower answer = "y" <-> answer = "y" \/ answer = "Y".
Proof.
  split.
  - destruct answer as [|c [|c' s]]; cbn; try discriminate.
    intros H. injection H as H.
    destruct c as [[] [] [] [] [] [] [] []]; cbn in H; try discriminate; auto.
  - intros [-> | ->]; reflexivity.
Qed.

(** C1. When the operator's answer at the confirmation prompt is not
    affirmative (its lower-cased form differs from ["y"]), the run ends
    with [sys.exit("Aborted.")], exit status 1, after printing the
    introduction and prompting: no HTTP request of any kind was sent, so
    in particular none to a state-changing endpoint. *)
Theorem declined_confirmation_aborts_without_requests env cfg fuel answer :
  operator env = Some answer ->
  lower answer <> "y" ->
  run env cfg fuel
  = (Exit 1 "Aborted.",
     mkState 0 0 [Print intro_line; Input (confirmation_prompt cfg) (Some answer)]) /\
  exit_status (fst (run env cfg fuel)) = Some 1%Z /\
  (forall rq rp, ~ In (Http rq rp) (trace (snd (run env cfg fuel)))).
Proof.
  intros Ho Hn.
  assert (E : run env cfg fuel
              = (Exit 1 "Aborted.",
                 mkState 0 0 [Print intro_line;
                              Input (confirmation_prompt cfg) (Some answer)])).
  { unfold run, main, input, print, sys_exit, emit, bind, init.
    cbn [requests reads trace app]. rewrite Ho.
    apply String.eqb_neq in Hn. now rewrite Hn. }
  rewrite E. repeat split.
  intros rq rp [H|[H|[]]]; discriminate H.
Qed.

Lemma declined_confirmation_aborts_without_requests_witness :
  run (Samples.cooperative "n") Samples.cfg 5
  = (Exit 1 "Aborted.",
     mkState 0 0 [Print intro_line;
                  Input (confirmation_prompt Samples.cfg) (Some "n")]) /\
  exit_status (fst (run (Samples.cooperative "n") Samples.cfg 5)) = Some 1%Z /\
  (forall rq rp,
     ~ In (Http rq rp) (trace (snd (run (Samples.cooperative "n") Samples.cfg 5)))).
Proof.
  apply (declined_confirmation_aborts_without_requests
           (Samples.cooperative "n") Samples.cfg 5 "n").
  - reflexivity.
  - discriminate.
Defined.

(** ** Fetches and clock readings of a wait *)

(** C6. In any run of [wait_for_server_status], whatever happened in
    earlier rounds: when a fetch of the loop is answered with a status
    code other than the expected one, the wait returns [False], and the
    only thing that happens after that fetch is the printing of the error
    report; no further fetch, no sleep and no clock reading follow. *)
Theorem failed_fetch_abandons_wait
    env cfg id status code timeout fuel st evs pre rq r post :
  trace (snd (wait_for_server_status env cfg fuel id status code timeout st))
    = trace st ++ evs ->
  evs = pre ++ Http rq (Responded r) :: post ->
  status_code r <> code ->
  fst (wait_for_server_status env cfg fuel id status code timeout st) = Ret false /\
  post = [Print (error_report r)].
Proof. apply wait_bad_code. Qed.

Lemma failed_fetch_abandons_wait_witness :
  fst (wait_for_server_status Samples.flaky Samples.cfg 7 "42" "running" 200 300 init)
    = Ret false /\
  [Print (error_report (mkResponse 503 "Service Unavailable" None))]
    = [Print "Error 503: Service Unavailable"].
Proof.
  apply (failed_fetch_abandons_wait Samples.flaky Samples.cfg "42" "running" 200 300 7
           init
           (wait_events Samples.flaky Samples.cfg "42" 0 0 1
              [Http (get_request Samples.cfg "42") Samples.unavailable;
               Print "Error 503: Service Unavailable"])
           (wait_events Samples.flaky Samples.cfg "42" 0 0 1 [])
           (get_request Samples.cfg "42")
           (mkResponse 503 "Service Unavailable" None)
           [Print "Error 503: Service Unavailable"]).
  - vm_compute. reflexivity.
  - vm_compute. reflexivity.
  - cbn. lia.
Defined.

Section TimeoutChecks.
Variable env : Env.
Variable cfg : Settings.
Variables (id status : string) (code : Z) (timeout : Q).

(** Every clock reading taken inside the loop comes right after such a
    fetch. *)
Lemma wait_loop_checks start fuel : forall spin st evs pre t post,
  trace (snd (wait_loop env cfg fuel id status code timeout start spin st))
    = trace st ++ evs ->
  evs = pre ++ Time t :: post ->
  after_unmatched_fetch cfg id status code pre.
Proof.
  induction fuel as [|fuel IH]; intros spin st evs pre t post Htr Hev.
  - cbn in Htr. rewrite <- (app_nil_r (trace st)) in Htr at 1.
    apply app_inv_head in Htr. subst evs. destruct (nil_eq_app_cons _ _ _ Hev).
  - rewrite wait_loop_step in Htr. cbv zeta in Htr.
    destruct (provider env (requests st)) as [r0|] eqn:Hp.
    2:{ cbn [snd trace] in Htr. apply app_inv_head in Htr. subst evs. walk Hev. }
    destruct (status_code r0 =? code)%Z eqn:Hc0.
    2:{ cbn [snd trace] in Htr. rewrite <- app_assoc in Htr.
        apply app_inv_head in Htr. subst evs. cbn [app] in Hev. walk Hev. }
    apply Z.eqb_eq in Hc0.
    destruct (server_status r0) as [s|] eqn:Hs.
    2:{ cbn [snd trace] in Htr. apply app_inv_head in Htr. subst evs. walk Hev. }
    destruct (String.eqb s status) eqn:Hst.
    { cbn [snd trace] in Htr. rewrite <- app_assoc in Htr.
      apply app_inv_head in Htr. subst evs. cbn [app] in Hev. walk Hev. }
    apply String.eqb_neq in Hst.
    destruct (Qgtb (wall_clock env (reads st) - start) timeout) eqn:Ht.
    { cbn [snd trace] in Htr. rewrite <- app_assoc in Htr.
      apply app_inv_head in Htr. subst evs. cbn [app] in Hev. walk Hev.
      exists [], r0, s. auto. }
    destruct (wait_loop_frame env cfg id status code timeout start fuel (S spin)
                (mkState (S (requests st)) (S (reads st))
                   (trace st ++ poll_round env cfg id (requests st) (reads st) spin)))
      as (evs' & Htr' & _).
    rewrite Htr' in Htr. cbn [trace] in Htr, Htr'. rewrite <- app_assoc in Htr.
    apply app_inv_head in Htr. subst evs.
    unfold poll_round in Hev. cbn [app] in Hev. rewrite Hp in Hev. walk Hev.
    + exists [], r0, s. auto.
    + destruct (IH _ _ _ _ _ _ Htr' Hev) as (pre' & r & s' & -> & ? & ? & ?).
      eexists (_ :: _ :: _ :: _ :: _ :: pre'), r, s'. cbn [app]. eauto.
Qed.

End TimeoutChecks.

(** C10. A wait reads the clock once on entry (the start time) and then
    fetches; every later clock reading, that is, every comparison of the
    elapsed time with the timeout, comes right after a fetch that was
    answered with the expected code and a status other than the awaited
    one.  Hence when the first fetch is answered with the expected code
    and the awaited status, the wait returns [True] after that single
    fetch whatever the timeout is (zero and negative included): the clock
    was read once and compared with nothing. *)
Theorem first_fetch_precedes_timeout_check env cfg id status code timeout fuel st :
  (exists evs,
     trace (snd (wait_for_server_status env cfg (S fuel) id status code timeout st))
       = trace st ++
         Time (wall_clock env (reads st)) ::
         Http (get_request cfg id) (provider env (requests st)) :: evs /\
     forall pre t post,
       Http (get_request cfg id) (provider env (requests st)) :: evs
         = pre ++ Time t :: post ->
       after_unmatched_fetch cfg id status code pre) /\
  (reports env status code (requests st) = true ->
   wait_for_server_status env cfg (S fuel) id status code timeout st
   = (Ret true,
      mkState (S (requests st)) (S (reads st))
        (trace st ++
         [Time (wall_clock env (reads st));
          Http (get_request cfg id) (provider env (requests st));
          Write (backspace +:+ " " +:+ newline)]))).
Proof.
  destruct st as [rq rd tr]. cbn [requests reads trace]. split.
  - rewrite wait_unfold.
    destruct (wait_loop_frame env cfg id status code timeout (wall_clock env rd)
                (S fuel) 0 (mkState rq (S rd) (tr ++ [Time (wall_clock env rd)])))
      as (evs' & Htr & _).
    pose proof (fun pre t post =>
                  wait_loop_checks env cfg id status code timeout (wall_clock env rd)
                    (S fuel) 0 _ evs' pre t post Htr) as Hchk.
    rewrite Htr. cbn [trace]. rewrite <- app_assoc. cbn [app].
    rewrite wait_loop_step in Htr. cbv zeta in Htr. cbn [requests reads trace] in Htr.
    assert (exists evs, evs' = Http (get_request cfg id) (provider env rq) :: evs)
      as [evs ->].
    { destruct (provider env rq) as [r|] eqn:Hp.
      2:{ cbn [snd trace] in Htr. apply app_inv_head in Htr. eauto. }
      destruct (status_code r =? code)%Z.
      2:{ cbn [snd trace] in Htr. rewrite <- app_assoc in Htr.
          apply app_inv_head in Htr. cbn [app] in Htr. eauto. }
      destruct (server_status r) as [s|].
      2:{ cbn [snd trace] in Htr. apply app_inv_head in Htr. eauto. }
      destruct (String.eqb s status).
      { cbn [snd trace] in Htr. rewrite <- app_assoc in Htr.
        apply app_inv_head in Htr. cbn [app] in Htr. eauto. }
      destruct (Qgtb (wall_clock env (S rd) - wall_clock env rd) timeout).
      { cbn [snd trace] in Htr. rewrite <- app_assoc in Htr.
        apply app_inv_head in Htr. cbn [app] in Htr. eauto. }
      match type of Htr with
      | trace (snd (wait_loop _ _ ?f _ _ _ _ ?s0 ?sp ?st0)) = _ =>
          destruct (wait_loop_frame env cfg id status code timeout s0 f sp st0)
            as (evs0 & Htr0 & _)
      end.
      rewrite Htr0 in Htr. cbn [trace] in Htr. rewrite <- !app_assoc in Htr.
      apply app_inv_head in Htr. apply app_inv_head in Htr.
      unfold poll_round in Htr. cbn [app] in Htr. rewrite Hp in Htr.
      rewrite <- Htr. eauto. }
    exists evs. split; [reflexivity | exact Hchk].
  - intros Hr.
    rewrite (wait_succeeds env cfg id status code timeout 0 (S fuel) rq rd tr);
      [ | reflexivity | now rewrite Nat.add_0_r | lia ].
    unfold wait_events. cbn [poll_rounds app]. now rewrite !Nat.add_0_r.
Qed.

Lemma first_fetch_precedes_timeout_check_witness :
  reports Samples.already_off "off" 200 0 = true /\
  wait_for_server_status Samples.already_off Samples.cfg 1 "42" "off" 200 (-5) init
  = (Ret true,
     mkState 1 1
       [Time (wall_clock Samples.already_off 0);
        Http (get_request Samples.cfg "42") (provider Samples.already_off 0);
        Write (backspace +:+ " " +:+ newline)]).
Proof.
  split; [reflexivity|].
  apply (proj2 (first_fetch_precedes_timeout_check
                  Samples.already_off Samples.cfg "42" "off" 200 (-5) 0 init)).
  reflexivity.
Defined.

(** ** Runs under a described behaviour of the environment *)

Lemma reports_inv env status code rq :
  reports env status code rq = true ->
  exists r, provider env rq = Responded r /\
            status_code r = code /\ server_status r = Some status.
Proof.
  unfold reports. destruct (provider env rq) as [r|]; [|discriminate].
  intros H. apply andb_prop in H as [Hc Hs]. apply Z.eqb_eq in Hc.
  destruct (server_status r) as [s|] eqn:Hst; [|discriminate].
  apply String.eqb_eq in Hs. subst. eauto.
Qed.

Lemma accepts_inv env rq :
  accepts env rq = true ->
  exists r, provider env rq = Responded r /\ status_code r = 201%Z.
Proof.
  unfold accepts. destruct (provider env rq) as [r|]; [|discriminate].
  intros H. apply Z.eqb_eq in H. eauto.
Qed.

Section Scenarios.
Variable env : Env.
Variable cfg : Settings.

Let fetch := get_request cfg (server_id cfg).
Let poweroff := action_request cfg (server_id cfg) "poweroff".
Let change_type :=
  change_type_request cfg (server_id cfg) (server_type cfg) (upgrade_disk cfg).

(** The rest of [main] once the change of type was accepted. *)
Lemma resize_phase_accepted fuel rq rd tr :
  accepts env rq = true ->
  resize_phase env cfg fuel (mkState rq rd tr)
  = match wait_for_server_status env cfg fuel (server_id cfg) "running" 200 300
            (mkState (S rq) rd
               (tr ++ [Http change_type (provider env rq);
                       Print (started_line cfg);
                       Print "Waiting for server to boot."])) with
    | (Ret true, st) =>
        (Ret tt, mkState (requests st) (reads st)
                   (trace st ++ [Print "Rescaled server now accessible"]))
    | (Ret false, st) => (Exit 1 "Failed to restart rescaled server.", st)
    | (Exit c m, st) => (Exit c m, st)
    | (Raise e, st) => (Raise e, st)
    | (OutOfFuel, st) => (OutOfFuel, st)
    end.
Proof.
  intros Ha. apply accepts_inv in Ha as (r & Hp & Hc).
  unfold resize_phase, scale_server, change_server_type, requests_post, http,
    print, sys_exit, emit, bind, ret.
  cbn [requests reads trace]. rewrite Hp, Hc. cbn [Z.eqb Pos.eqb negb].
  cbn [requests reads trace]. rewrite <- !app_assoc. cbn [app].
  fold change_type. unfold started_line.
  destruct (wait_for_server_status _ _ _ _ _ _ _ _) as [[[]| | |] st]; reflexivity.
Qed.

(** [main] when the operator confirms, the server is found running and
    the poweroff is accepted. *)
Lemma main_stopping fuel answer :
  operator env = Some answer ->
  lower answer = "y" ->
  reports env "running" 200 0 = true ->
  accepts env 1 = true ->
  run env cfg fuel
  = match wait_for_server_status env cfg fuel (server_id cfg) "off" 200 300
            (mkState 2 0
               [Print intro_line;
                Input (confirmation_prompt cfg) (Some answer);
                Http fetch (provider env 0);
                Print "Server is currently running.";
                Http poweroff (provider env 1);
                Print "Server stopping..."]) with
    | (Ret true, st) =>
        resize_phase env cfg fuel
          (mkState (requests st) (reads st)
             (trace st ++ [Print "Server stopped successfully.";
                           Print "Waiting 5 seconds before proceeding.";
                           Sleep 5]))
    | (Ret false, st) =>
        (Exit 1 "Aborted.",
         mkState (requests st) (reads st) (trace st ++ [Print "Failed to stop server."]))
    | (Exit c m, st) => (Exit c m, st)
    | (Raise e, st) => (Raise e, st)
    | (OutOfFuel, st) => (OutOfFuel, st)
    end.
Proof.
  intros Ho Hy Hr Ha.
  apply reports_inv in Hr as (r0 & Hp0 & Hc0 & Hs0).
  apply accepts_inv in Ha as (r1 & Hp1 & Hc1).
  unfold run, main. fold (resize_phase env cfg fuel).
  unfold server_is_running, stop_server, server_action, get_server, requests_get,
    requests_post, http, input, json_server_status, sys_exit, print, sleep, emit,
    bind, ret, raise, init.
  cbn [requests reads trace app]. rewrite Ho, Hy. cbn [String.eqb Ascii.eqb Bool.eqb negb].
  cbn [requests reads trace app]. rewrite Hp0, Hc0. cbn [Z.eqb Pos.eqb].
  rewrite Hs0. cbn [String.eqb Ascii.eqb Bool.eqb requests reads trace app].
  rewrite Hp1, Hc1. cbn [Z.eqb Pos.eqb requests reads trace app].
  fold fetch. fold poweroff.
  destruct (wait_for_server_status _ _ _ _ _ _ _ _) as [[[]| | |] st];
    cbn [requests reads trace negb]; rewrite <- ?app_assoc; reflexivity.
Qed.

(** [main] when the operator confirms and the server is found in a state
    other than running. *)
Lemma main_not_running fuel answer r s :
  operator env = Some answer ->
  lower answer = "y" ->
  provider env 0 = Responded r ->
  status_code r = 200%Z ->
  server_status r = Some s ->
  s <> "running" ->
  run env cfg fuel
  = resize_phase env cfg fuel
      (mkState 1 0
         [Print intro_line;
          Input (confirmation_prompt cfg) (Some answer);
          Http fetch (Responded r);
          Print "Server is not running."]).
Proof.
  intros Ho Hy Hp Hc Hs Hn. apply String.eqb_neq in Hn.
  unfold run, main. fold (resize_phase env cfg fuel).
  unfold server_is_running, get_server, requests_get,
    http, input, json_server_status, sys_exit, print, emit,
    bind, ret, raise, init.
  cbn [requests reads trace app]. rewrite Ho, Hy. cbn [String.eqb Ascii.eqb Bool.eqb negb].
  cbn [requests reads trace app]. rewrite Hp, Hc. cbn [Z.eqb Pos.eqb].
  rewrite Hs, Hn. cbn [requests reads trace app].
  destruct (resize_phase env cfg fuel _) as [[]]; reflexivity.
Qed.

End Scenarios.

Lemma steps_of_app tr1 tr2 : steps_of (tr1 ++ tr2) = steps_of tr1 ++ steps_of tr2.
Proof.
  induction tr1 as [|e tr1 IH]; [reflexivity|].
  destruct e; cbn; now rewrite ?IH.
Qed.

Lemma steps_of_poll_rounds env cfg id n : forall rq rd spin,
  steps_of (poll_rounds env cfg id rq rd spin n) = polling (get_request cfg id) n.
Proof.
  induction n as [|n IH]; intros rq rd spin; [reflexivity|].
  cbn [poll_rounds poll_round app steps_of polling]. now rewrite IH.
Qed.

Lemma steps_of_wait_events env cfg id rq rd n last :
  steps_of (wait_events env cfg id rq rd n last)
  = polling (get_request cfg id) n ++ steps_of last.
Proof.
  unfold wait_events. cbn [steps_of]. now rewrite steps_of_app, steps_of_poll_rounds.
Qed.

Lemma in_steps_of rq rp tr : In (Http rq rp) tr -> In (Call rq) (steps_of tr).
Proof.
  induction tr as [|e tr IH]; [easy|].
  intros [->|H]; [now left|].
  destruct e; cbn; auto.
Qed.

Lemma in_polling rq rq' n : In (Call rq') (polling rq n) -> rq' = rq.
Proof.
  induction n as [|n IH]; cbn; [easy|].
  intros [H|[H|H]]; [congruence | discriminate | auto].
Qed.

Lemma wait_events_app env cfg id rq rd n l1 l2 :
  wait_events env cfg id rq rd n (l1 ++ l2) = wait_events env cfg id rq rd n l1 ++ l2.
Proof. unfold wait_events. cbn [app]. now rewrite <- app_assoc. Qed.

(** C2. The operator confirms, the server is found running and the
    poweroff is accepted; the wait for [off] then goes through [n] rounds
    without seeing [off], and in the next round the clock shows more than
    the 300 s budget since the wait began.  Then the run reports the
    timeout and the failed stop, ends with [sys.exit("Aborted.")], exit
    status 1, and the only requests it ever sent are the status fetches
    and the poweroff: the change of type was never requested. *)
Theorem stop_timeout_aborts_before_resize env cfg fuel answer n :
  operator env = Some answer ->
  lower answer = "y" ->
  reports env "running" 200 0 = true ->
  accepts env 1 = true ->
  still_waiting env "off" 200 300 (wall_clock env 0) 2 1 n = true ->
  overdue env "off" 200 300 (wall_clock env 0) (2 + n) (1 + n) = true ->
  (n < fuel)%nat ->
  let fetch := get_request cfg (server_id cfg) in
  let poweroff := action_request cfg (server_id cfg) "poweroff" in
  exists before,
    run env cfg fuel
    = (Exit 1 "Aborted.",
       mkState (3 + n) (2 + n)
         (before ++ [Print "Timed out waiting for server status change.";
                     Print "Failed to stop server."])) /\
    exit_status (fst (run env cfg fuel)) = Some 1%Z /\
    steps_of (trace (snd (run env cfg fuel)))
      = Call fetch :: Call poweroff :: polling fetch n ++ [Call fetch] /\
    (forall ty disk rp,
       ~ In (Http (change_type_request cfg (server_id cfg) ty disk) rp)
            (trace (snd (run env cfg fuel)))).
Proof.
  intros Ho Hy Hr Ha Hw Hov Hf fetch poweroff.
  pose proof (main_stopping env cfg fuel answer Ho Hy Hr Ha) as E.
  rewrite (wait_times_out env cfg (server_id cfg) "off" 200 300 n fuel 2 0) in E
    by assumption.
  cbn [requests reads trace] in E.
  change [Http (get_request cfg (server_id cfg)) (provider env (2 + n));
          Time (wall_clock env (1 + n));
          Print "Timed out waiting for server status change."]
    with ([Http (get_request cfg (server_id cfg)) (provider env (2 + n));
           Time (wall_clock env (1 + n))] ++
          [Print "Timed out waiting for server status change."]) in E.
  rewrite wait_events_app, app_assoc, <- (app_assoc _ [Print _] [Print _]) in E.
  cbn [app] in E.
  assert (Hsteps : steps_of (trace (snd (run env cfg fuel)))
                   = Call fetch :: Call poweroff :: polling fetch n ++ [Call fetch]).
  { rewrite E. cbn [snd trace steps_of].
    rewrite !steps_of_app, steps_of_wait_events.
    cbn [steps_of app]. now rewrite app_nil_r. }
  exists ([Print intro_line;
           Input (confirmation_prompt cfg) (Some answer);
           Http fetch (provider env 0);
           Print "Server is currently running.";
           Http poweroff (provider env 1);
           Print "Server stopping..."] ++
          wait_events env cfg (server_id cfg) 2 0 n
            [Http fetch (provider env (2 + n)); Time (wall_clock env (1 + n))]).
  repeat split.
  - rewrite E. now rewrite <- app_assoc.
  - now rewrite E.
  - exact Hsteps.
  - intros ty disk rp Hin. apply in_steps_of in Hin. rewrite Hsteps in Hin.
    destruct Hin as [H|[H|H]].
    + apply (f_equal (fun s => match s with Call rq => rq_method rq | _ => GET end)) in H.
      discriminate H.
    + apply (f_equal (fun s => match s with Call rq => rq_json rq | _ => None end)) in H.
      discriminate H.
    + apply in_app_or in H as [H|[H|[]]]; [apply in_polling in H|].
      * apply (f_equal rq_method) in H. discriminate H.
      * apply (f_equal (fun s => match s with Call rq => rq_method rq | _ => GET end)) in H.
        discriminate H.
Qed.

Lemma stop_timeout_aborts_before_resize_witness :
  let fetch := get_request Samples.cfg "42" in
  let poweroff := action_request Samples.cfg "42" "poweroff" in
  exists before,
    run Samples.stuck Samples.cfg 5
    = (Exit 1 "Aborted.",
       mkState 4 3
         (before ++ [Print "Timed out waiting for server status change.";
                     Print "Failed to stop server."])) /\
    exit_status (fst (run Samples.stuck Samples.cfg 5)) = Some 1%Z /\
    steps_of (trace (snd (run Samples.stuck Samples.cfg 5)))
      = Call fetch :: Call poweroff :: polling fetch 1 ++ [Call fetch] /\
    (forall ty disk rp,
       ~ In (Http (change_type_request Samples.cfg "42" ty disk) rp)
            (trace (snd (run Samples.stuck Samples.cfg 5)))).
Proof.
  apply (stop_timeout_aborts_before_resize Samples.stuck Samples.cfg 5 "Y" 1);
    try reflexivity.
  lia.
Defined.

(** C3. The operator confirms, the server is found running, the poweroff
    is accepted, the server is seen [off] after [n] rounds of polling,
    the change of type is accepted and the server is seen [running] after
    [m] rounds of polling, all within the time budgets.  Then the run
    ends normally (exit status 0), and its remote calls and pauses are,
    in this order: the status fetch, the poweroff, [n] rounds of fetch
    and one-second pause, the fetch that sees [off], a pause of 5
    seconds, the change of type carrying the configured type and
    disk-upgrade flag, [m] rounds of fetch and one-second pause, and the
    fetch that sees [running]. *)
Theorem happy_path env cfg fuel answer n m :
  operator env = Some answer ->
  lower answer = "y" ->
  reports env "running" 200 0 = true ->
  accepts env 1 = true ->
  still_waiting env "off" 200 300 (wall_clock env 0) 2 1 n = true ->
  reports env "off" 200 (2 + n) = true ->
  accepts env (3 + n) = true ->
  still_waiting env "running" 200 300 (wall_clock env (1 + n)) (4 + n) (2 + n) m = true ->
  reports env "running" 200 (4 + n + m) = true ->
  (n < fuel)%nat ->
  (m < fuel)%nat ->
  let fetch := get_request cfg (server_id cfg) in
  let poweroff := action_request cfg (server_id cfg) "poweroff" in
  let change_type :=
    change_type_request cfg (server_id cfg) (server_type cfg) (upgrade_disk cfg) in
  fst (run env cfg fuel) = Ret tt /\
  exit_status (fst (run env cfg fuel)) = Some 0%Z /\
  steps_of (trace (snd (run env cfg fuel)))
    = [Call fetch; Call poweroff] ++ polling fetch n ++
      [Call fetch; Pause 5; Call change_type] ++ polling fetch m ++
      [Call fetch].
Proof.
  intros Ho Hy Hr Ha Hw1 Hoff Hct Hw2 Hrun Hn Hm fetch poweroff change_type.
  pose proof (main_stopping env cfg fuel answer Ho Hy Hr Ha) as E.
  rewrite (wait_succeeds env cfg (server_id cfg) "off" 200 300 n fuel 2 0) in E
    by assumption.
  cbn [requests reads trace] in E.
  rewrite resize_phase_accepted in E by exact Hct.
  rewrite (wait_succeeds env cfg (server_id cfg) "running" 200 300 m fuel
             (S (S (2 + n))) (1 + n)) in E by assumption.
  cbn [requests reads trace] in E.
  rewrite E. cbn [fst snd trace exit_status]. repeat split.
  rewrite !steps_of_app, !steps_of_wait_events. cbn [steps_of app].
  rewrite <- !app_assoc. cbn [app]. rewrite ?app_nil_r.
  reflexivity.
Qed.

Lemma happy_path_witness :
  let fetch := get_request Samples.cfg "42" in
  let poweroff := action_request Samples.cfg "42" "poweroff" in
  let change_type := change_type_request Samples.cfg "42" "cpx21" false in
  fst (run (Samples.cooperative "y") Samples.cfg 3) = Ret tt /\
  exit_status (fst (run (Samples.cooperative "y") Samples.cfg 3)) = Some 0%Z /\
  steps_of (trace (snd (run (Samples.cooperative "y") Samples.cfg 3)))
    = [Call fetch; Call poweroff] ++ polling fetch 1 ++
      [Call fetch; Pause 5; Call change_type] ++ polling fetch 1 ++
      [Call fetch].
Proof.
  apply (happy_path (Samples.cooperative "y") Samples.cfg 3 "y" 1 1);
    try reflexivity; lia.
Defined.

Section Resize.
Variable env : Env.
Variable cfg : Settings.

(** Whatever follows, the rest of [main] begins with the request for a
    change of type, and sends no other POST. *)
Lemma resize_phase_first fuel rq rd tr :
  exists evs,
    trace (snd (resize_phase env cfg fuel (mkState rq rd tr)))
    = tr ++ Http (change_type_request cfg (server_id cfg) (server_type cfg)
                    (upgrade_disk cfg)) (provider env rq) :: evs /\
    Forall (quiet cfg (server_id cfg)) evs.
Proof.
  destruct (accepts env rq) eqn:Ha.
  - rewrite resize_phase_accepted by exact Ha.
    match goal with
    | |- context [wait_for_server_status env cfg ?f ?i ?s ?c ?t ?st1] =>
        destruct (wait_frame env cfg i s c t f st1) as (evs & Htr & Hq & _);
        destruct (wait_for_server_status env cfg f i s c t st1) as [[[]| | |] st2]
    end;
    cbn [fst snd trace requests reads] in *; rewrite Htr, <- ?app_assoc; cbn [app];
    eexists; (split; [reflexivity|]);
    repeat (constructor; [exact I|]); try exact Hq.
    apply Forall_app. split; [exact Hq | repeat constructor].
  - unfold accepts in Ha.
    unfold resize_phase, scale_server, change_server_type, requests_post, http,
      print, sys_exit, emit, bind, ret.
    cbn [requests reads trace].
    destruct (provider env rq) as [r|].
    + rewrite Ha. cbn [negb fst snd trace]. rewrite <- app_assoc. cbn [app].
      eexists. split; [reflexivity | repeat constructor].
    + eexists. split; [reflexivity | constructor].
Qed.

End Resize.

(** C4. When the operator confirms and the status fetch is answered with
    code 200 and a status other than ["running"], the script reports that
    the server is not running and the very next request is the change of
    type; after it nothing but GET requests is sent.  So no poweroff is
    issued and no wait for [off] takes place. *)
Theorem not_running_skips_stop env cfg fuel answer r s :
  operator env = Some answer ->
  lower answer = "y" ->
  provider env 0 = Responded r ->
  status_code r = 200%Z ->
  server_status r = Some s ->
  s <> "running" ->
  exists evs,
    trace (snd (run env cfg fuel))
    = [Print intro_line;
       Input (confirmation_prompt cfg) (Some answer);
       Http (get_request cfg (server_id cfg)) (Responded r);
       Print "Server is not running.";
       Http (change_type_request cfg (server_id cfg) (server_type cfg) (upgrade_disk cfg))
            (provider env 1)] ++ evs /\
    Forall (quiet cfg (server_id cfg)) evs.
Proof.
  intros Ho Hy Hp Hc Hs Hn.
  rewrite (main_not_running env cfg fuel answer r s) by assumption.
  destruct (resize_phase_first env cfg fuel 1 0
              [Print intro_line;
               Input (confirmation_prompt cfg) (Some answer);
               Http (get_request cfg (server_id cfg)) (Responded r);
               Print "Server is not running."]) as (evs & Htr & Hq).
  exists evs. split; [exact Htr | exact Hq].
Qed.

Lemma not_running_skips_stop_witness :
  exists evs,
    trace (snd (run Samples.already_off Samples.cfg 4))
    = [Print intro_line;
       Input (confirmation_prompt Samples.cfg) (Some "y");
       Http (get_request Samples.cfg "42")
            (Responded (mkResponse 200 "{...}" (Some "off")));
       Print "Server is not running.";
       Http (change_type_request Samples.cfg "42" "cpx21" false)
            (provider Samples.already_off 1)] ++ evs /\
    Forall (quiet Samples.cfg "42") evs.
Proof.
  apply (not_running_skips_stop Samples.already_off Samples.cfg 4 "y"
           (mkResponse 200 "{...}" (Some "off")) "off");
    try reflexivity.
  discriminate.
Defined.

(** Every run opens with the introduction and the confirmation prompt. *)
Lemma run_opens_with_prompt cfg o tr :
  Run cfg o tr ->
  exists answer rest,
    tr = Print intro_line :: Input (confirmation_prompt cfg) answer :: rest.
Proof. intros R. destruct R; cbn [app]; eauto. Qed.

(** C5 (the behaviour of the code).  In every run the first two events
    are the introduction and the confirmation prompt, so every HTTP
    request of the run, the fetch of the server's status included, is
    sent after the operator has been prompted, never before. *)
Theorem prompt_precedes_every_request env cfg fuel pre rq rp post :
  trace (snd (run env cfg fuel)) = pre ++ Http rq rp :: post ->
  exists answer pre',
    pre = Print intro_line :: Input (confirmation_prompt cfg) answer :: pre'.
Proof.
  intros H.
  destruct (run_opens_with_prompt cfg _ _ (main_runs env cfg fuel))
    as (answer & rest & E).
  rewrite E in H. walk H. eauto.
Qed.

Lemma prompt_precedes_every_request_witness :
  exists answer pre',
    [Print intro_line; Input (confirmation_prompt Samples.cfg) (Some "y")]
    = Print intro_line :: Input (confirmation_prompt Samples.cfg) answer :: pre'.
Proof.
  apply (prompt_precedes_every_request Samples.already_off Samples.cfg 4
           [Print intro_line; Input (confirmation_prompt Samples.cfg) (Some "y")]
           (get_request Samples.cfg "42")
           (Samples.reports_status "off")
           (skipn 3 (trace (snd (run Samples.already_off Samples.cfg 4))))).
  vm_compute. reflexivity.
Defined.

(** ** Properties of all runs, by cases on the shape of the run *)

Lemma post_not_quiet cfg id rq rp :
  rq_method rq = POST -> ~ quiet cfg id (Http rq rp).
Proof. cbn. intros Hm ->. discriminate Hm. Qed.

(** Look for the POST singled out by [H : trace = pre ++ Http rq rp :: post]
    when the trace is made of written-out events and of blocks of quiet
    events. [Hm] proves that the request is a POST. *)
Ltac locate H Hm :=
  let Hx := fresh "Hx" in
  let Hl := fresh "Hl" in
  let p := fresh "pre" in
  cbn [app] in H;
  match type of H with
  | [] = _ ++ _ :: _ => destruct (nil_eq_app_cons _ _ _ H)
  | _ :: _ = _ ++ _ :: _ =>
      apply cons_eq_app_cons in H;
      destruct H as [(-> & Hx & Hl) | (p & -> & H)];
      [ try discriminate Hx | locate H Hm ]
  | ?evs ++ _ = _ ++ _ :: _ =>
      match goal with
      | Hq : Forall ?P evs |- _ =>
          apply (skip_block P evs) in H;
          [ destruct H as (p & -> & H); locate H Hm
          | exact Hq
          | apply post_not_quiet; exact Hm ]
      end
  | ?evs = _ ++ _ :: _ =>
      is_var evs;
      match goal with
      | Hq : Forall _ evs |- _ => rewrite <- (app_nil_r evs) in H; locate H Hm
      end
  | _ => idtac
  end.

(** Open up the shapes of the phases of a run. *)
Ltac open_phases :=
  repeat match goal with
  | S : Stopping _ _ _ |- _ => inversion S; clear S; subst
  | R : Resizing _ _ _ |- _ => inversion R; clear R; subst
  end.

Section AllRuns.
Variable env : Env.
Variable cfg : Settings.

Let fetch := get_request cfg (server_id cfg).
Let poweroff := action_request cfg (server_id cfg) "poweroff".
Let change_type :=
  change_type_request cfg (server_id cfg) (server_type cfg) (upgrade_disk cfg).

Lemma action_replies_in_runs o tr pre rq r post :
  Run cfg o tr ->
  tr = pre ++ Http rq (Responded r) :: post ->
  rq_method rq = POST ->
  (rq = poweroff \/ rq = change_type) /\
  (status_code r <> 201%Z ->
   o = Exit 1 "Aborted." /\ post = [Print (error_report r)]) /\
  (status_code r = 201%Z ->
   (rq = poweroff /\ exists post', post = Print "Server stopping..." :: post') \/
   (rq = change_type /\
    exists post',
      post = Print (started_line cfg) :: Print "Waiting for server to boot." :: post')).
Proof.
  intros R H Hm. destruct R; open_phases; rewrite <- ?app_assoc in H;
    locate H Hm;
    try (injection Hx as <- <-; try discriminate Hm);
    subst;
    (split; [auto | split; [intros Hne; try contradiction; auto
                           | intros He; try contradiction; eauto]]).
Qed.

End AllRuns.

(** C7. In every run, every POST that was answered is the poweroff or
    the change of type.  When the answer's code is not 201, the run
    prints ["Error <code>: <body>"] built from the response's own code
    and text, sends nothing more (in particular it does not repeat the
    request) and ends with [sys.exit("Aborted.")], exit status 1.  When
    the code is 201 the script announces the progress and goes on: to the
    wait for [off] after the poweroff, to the wait for [running] after the
    change of type. *)
Theorem action_reply_handling env cfg fuel pre rq r post :
  trace (snd (run env cfg fuel)) = pre ++ Http rq (Responded r) :: post ->
  rq_method rq = POST ->
  let poweroff := action_request cfg (server_id cfg) "poweroff" in
  let change_type :=
    change_type_request cfg (server_id cfg) (server_type cfg) (upgrade_disk cfg) in
  (rq = poweroff \/ rq = change_type) /\
  (status_code r <> 201%Z ->
   fst (run env cfg fuel) = Exit 1 "Aborted." /\
   exit_status (fst (run env cfg fuel)) = Some 1%Z /\
   post = [Print ("Error " +:+ pretty (status_code r) +:+ ": " +:+ text r)]) /\
  (status_code r = 201%Z ->
   (rq = poweroff /\ exists post', post = Print "Server stopping..." :: post') \/
   (rq = change_type /\
    exists post',
      post = Print (started_line cfg) :: Print "Waiting for server to boot." :: post')).
Proof.
  intros H Hm poweroff change_type.
  destruct (action_replies_in_runs cfg _ _ pre rq r post (main_runs env cfg fuel) H Hm)
    as (Hrq & Hbad & Hok).
  split; [exact Hrq|]. split; [|exact Hok].
  intros Hne. destruct (Hbad Hne) as [Ho Hp]. rewrite Ho. auto.
Qed.

Lemma action_reply_handling_witness :
  let poweroff := action_request Samples.cfg "42" "poweroff" in
  let change_type := change_type_request Samples.cfg "42" "cpx21" false in
  let r := mkResponse 422 "server type unavailable" None in
  let post := [Print "Error 422: server type unavailable"] in
  (poweroff = poweroff \/ poweroff = change_type) /\
  (status_code r <> 201%Z ->
   fst (run Samples.refusing Samples.cfg 3) = Exit 1 "Aborted." /\
   exit_status (fst (run Samples.refusing Samples.cfg 3)) = Some 1%Z /\
   post = [Print ("Error " +:+ pretty (status_code r) +:+ ": " +:+ text r)]) /\
  (status_code r = 201%Z ->
   (poweroff = poweroff /\ exists post', post = Print "Server stopping..." :: post') \/
   (poweroff = change_type /\
    exists post',
      post = Print (started_line Samples.cfg) ::
             Print "Waiting for server to boot." :: post')).
Proof.
  apply (action_reply_handling Samples.refusing Samples.cfg 3
           (firstn 4 (trace (snd (run Samples.refusing Samples.cfg 3))))
           (action_request Samples.cfg "42" "poweroff")
           (mkResponse 422 "server type unavailable" None)
           [Print "Error 422: server type unavailable"]).
  - vm_compute. reflexivity.
  - reflexivity.
Defined.


Section AfterResize.
Variable cfg : Settings.

Let fetch := get_request cfg (server_id cfg).
Let change_type :=
  change_type_request cfg (server_id cfg) (server_type cfg) (upgrade_disk cfg).




End AfterResize.




(** When the process gets as far as [main], the command line decided as
    follows. *)
Lemma load_inv config_read cl st :
  load config_read cl = Ret st ->
  exists args config,
    parse_args cl = Ret args /\
    config_read (a_config args) = inr config /\
    str_or (a_api_key args) (call (config_get config "hetzner" "api_key"))
      = Ret (api_key st) /\
    str_or (a_server_id args) (call (config_get config "hetzner" "server_id"))
      = Ret (server_id st) /\
    server_type st = a_server_type args /\
    (if a_upgrade_disk args then Ret true
     else call (config_getboolean config "hetzner" "upgrade_disk" false))
      = Ret (upgrade_disk st).
Proof.
  unfold load. destruct (parse_args cl) as [args| | |]; try discriminate.
  cbn [and_then].
  destruct (config_read (a_config args)) as [e|config] eqn:Hc; [discriminate|].
  cbn [call and_then].
  destruct (str_or (a_api_key args) _) as [k| | |] eqn:Hk; try discriminate.
  cbn [and_then].
  destruct (str_or (a_server_id args) _) as [i| | |] eqn:Hi; try discriminate.
  cbn [and_then].
  destruct (if a_upgrade_disk args then _ else _) as [u| | |] eqn:Hu; try discriminate.
  cbn [and_then]. intros H. injection H as <-. exists args, config. cbn. auto 6.
Qed.

Lemma parse_args_given cl t :
  cl_server_type cl = Some t ->
  In t server_type_choices ->
  parse_args cl
  = Ret (mkArgs (default "config.ini" (cl_config cl)) (cl_api_key cl)
           (cl_server_id cl) t (cl_upgrade_disk cl)).
Proof.
  intros Ht Hin. unfold parse_args. rewrite Ht.
  assert (E : existsb (String.eqb t) server_type_choices = true).
  { apply existsb_exists. exists t. split; [exact Hin|]. apply String.eqb_refl. }
  now rewrite E.
Qed.

Lemma parse_args_config cl args :
  parse_args cl = Ret args ->
  a_config args = default "config.ini" (cl_config cl) /\
  a_api_key args = cl_api_key cl /\
  a_server_id args = cl_server_id cl /\
  a_upgrade_disk args = cl_upgrade_disk cl.
Proof.
  unfold parse_args. destruct (cl_server_type cl) as [ty|].
  - destruct (existsb _ _); [|discriminate]. intros H. now injection H as <-.
  - intros H. now injection H as <-.
Qed.

(** C9.  The command line does not always win.  Take any command line
    that gives an api key [k], a server id [i], one of the offered
    server types [t] and the flag [--upgrade_disk], and any
    configuration file from which the library returns an api key [fk]
    and a server id [fi] (whatever it holds for the server type and the
    disk upgrade).  The settings are then loaded, with the command
    line's type and the upgrade on; but the api key is [k] only when [k]
    is not empty, and the file's [fk] otherwise, and likewise for the
    server id: a value given as the empty string is treated as not
    given. *)
Theorem empty_command_line_value_gives_way config_read cl config k i t fk fi :
  config_read (default "config.ini" (cl_config cl)) = inr config ->
  cl_api_key cl = Some k ->
  cl_server_id cl = Some i ->
  cl_server_type cl = Some t ->
  In t server_type_choices ->
  cl_upgrade_disk cl = true ->
  config_get config "hetzner" "api_key" = inr fk ->
  config_get config "hetzner" "server_id" = inr fi ->
  load config_read cl
  = Ret (mkSettings (if String.eqb k "" then fk else k)
                    (if String.eqb i "" then fi else i) t true).
Proof.
  intros Hc Hk Hi Ht Hin Hu Hfk Hfi.
  unfold load. rewrite (parse_args_given cl t Ht Hin).
  cbn [and_then a_config a_api_key a_server_id a_server_type a_upgrade_disk].
  rewrite Hc. cbn [call and_then]. rewrite Hk, Hi, Hu, Hfk, Hfi.
  unfold str_or. cbn [call].
  destruct (String.eqb k ""), (String.eqb i ""); reflexivity.
Qed.

Lemma empty_command_line_value_gives_way_witness :
  load ConfigSamples.files ConfigSamples.empty_key
  = Ret (mkSettings "file-key" "42" "cpx21" true).
Proof.
  apply (empty_command_line_value_gives_way ConfigSamples.files
           ConfigSamples.empty_key ConfigSamples.hetzner "" "42" "cpx21"
           "file-key" "7");
    try reflexivity.
  cbn. auto.
Defined.

(** * Further properties of the script *)

(** ** The anatomy of a wait *)

Section Anatomy.
Variable env : Env.
Variable cfg : Settings.
Variables (id status : string) (code : Z) (timeout : Q).

Lemma wait_loop_anatomy start fuel : forall spin rq rd tr,
  exists n last,
    (n <= fuel)%nat /\
    still_waiting env status code timeout start rq rd n = true /\
    trace (snd (wait_loop env cfg fuel id status code timeout start spin
                  (mkState rq rd tr)))
      = tr ++ poll_rounds env cfg id rq rd spin n ++ last /\
    Ending cfg id status code timeout start
      (fst (wait_loop env cfg fuel id status code timeout start spin
              (mkState rq rd tr))) last /\
    requests (snd (wait_loop env cfg fuel id status code timeout start spin
                     (mkState rq rd tr)))
      = (rq + n + length (steps_of last))%nat /\
    (fst (wait_loop env cfg fuel id status code timeout start spin
            (mkState rq rd tr)) = OutOfFuel -> n = fuel).
Proof.
  induction fuel as [|fuel IH]; intros spin rq rd tr.
  - exists 0%nat, []. cbn. rewrite app_nil_r. repeat split; auto; [constructor | lia].
  - rewrite wait_loop_step. cbv zeta. cbn [requests reads trace].
    destruct (provider env rq) as [r|] eqn:Hp.
    2:{ exists 0%nat, [Http (get_request cfg id) TransportFailure].
        cbn. repeat split; auto; [lia | constructor | lia | discriminate]. }
    destruct (status_code r =? code)%Z eqn:Hc.
    2:{ apply Z.eqb_neq in Hc.
        exists 0%nat, [Http (get_request cfg id) (Responded r); Print (error_report r)].
        cbn. rewrite <- app_assoc. repeat split; auto; [lia | now constructor | lia | discriminate]. }
    apply Z.eqb_eq in Hc.
    destruct (server_status r) as [s|] eqn:Hs.
    2:{ exists 0%nat, [Http (get_request cfg id) (Responded r)].
        cbn. repeat split; auto; [lia | now constructor | lia | discriminate]. }
    destruct (String.eqb s status) eqn:Hst.
    { apply String.eqb_eq in Hst. subst s.
      exists 0%nat, [Http (get_request cfg id) (Responded r);
                     Write (backspace +:+ " " +:+ newline)].
      cbn. rewrite <- app_assoc. repeat split; auto; [lia | now constructor | lia | discriminate]. }
    destruct (Qgtb (wall_clock env rd - start) timeout) eqn:Ht.
    { apply String.eqb_neq in Hst.
      exists 0%nat, [Http (get_request cfg id) (Responded r);
                     Time (wall_clock env rd);
                     Print "Timed out waiting for server status change."].
      cbn. rewrite <- app_assoc. repeat split; auto;
        [lia | now apply (end_timed_out _ _ _ _ _ _ r s) | lia | discriminate]. }
    destruct (IH (S spin) (S rq) (S rd) (tr ++ poll_round env cfg id rq rd spin))
      as (n & last & Hn & Hw & Htr & Hend & Hrq & Hout).
    exists (S n), last. repeat split.
    + lia.
    + cbn [still_waiting]. rewrite Hw, andb_true_r.
      unfold pending. now rewrite Hp, Hc, Z.eqb_refl, Hs, Hst, Ht.
    + rewrite Htr. cbn [poll_rounds]. now rewrite <- !app_assoc.
    + exact Hend.
    + rewrite Hrq. lia.
    + intros H. now rewrite (Hout H).
Qed.

End Anatomy.

(** X1. Every run of [wait_for_server_status] is made of the reading of
    the start time, some number [n] of rounds that neither succeed nor
    fail (a fetch answered with the expected code and another status,
    within the time budget, then a spinner frame and a sleep of one
    second), and one ending: [True] right after a fetch that reports the
    awaited status; [False] right after a fetch with another code (with
    the error report printed) or after a clock reading beyond the budget
    (with the timeout message printed); an exception right at the fetch
    that did not answer or whose body holds no status. *)
Theorem wait_anatomy env cfg id status code timeout fuel rq rd tr :
  exists n last,
    (n <= fuel)%nat /\
    still_waiting env status code timeout (wall_clock env rd) rq (S rd) n = true /\
    trace (snd (wait_for_server_status env cfg fuel id status code timeout
                  (mkState rq rd tr)))
      = tr ++ wait_events env cfg id rq rd n last /\
    Ending cfg id status code timeout (wall_clock env rd)
      (fst (wait_for_server_status env cfg fuel id status code timeout
              (mkState rq rd tr))) last.
Proof.
  rewrite wait_unfold.
  destruct (wait_loop_anatomy env cfg id status code timeout (wall_clock env rd) fuel
              0 rq (S rd) (tr ++ [Time (wall_clock env rd)]))
    as (n & last & Hn & Hw & Htr & Hend & _).
  exists n, last. repeat split; auto.
  rewrite Htr. unfold wait_events. now rewrite <- app_assoc.
Qed.

(** The rounds described by [still_waiting], one by one. *)
Lemma still_waiting_round env status code timeout start n : forall rq rd i,
  still_waiting env status code timeout start rq rd n = true ->
  (i < n)%nat ->
  pending env status code timeout start (rq + i) (rd + i) = true.
Proof.
  induction n as [|n IH]; intros rq rd i H Hi; [lia|].
  cbn [still_waiting] in H. apply andb_prop in H as [H0 H].
  destruct i as [|i].
  - now rewrite !Nat.add_0_r.
  - rewrite <- !Nat.add_succ_comm. apply IH; [exact H | lia].
Qed.

Lemma pending_within env status code timeout start rq rd :
  pending env status code timeout start rq rd = true ->
  (wall_clock env rd - start <= timeout)%Q.
Proof.
  unfold pending. destruct (provider env rq) as [r|]; [|discriminate].
  intros H. apply andb_prop in H as [_ H]. unfold Qgtb in H.
  apply negb_true_iff, negb_false_iff in H. now apply Qle_bool_iff.
Qed.

(** X2. The wait does not poll for ever.  When the clock advances at
    least as fast as the loop sleeps (the [k]-th reading taken inside the
    loop is at least [k] seconds after the start) and [N] seconds exceed
    the timeout, the wait returns a result and has sent at most [N + 1]
    fetches; any amount of fuel above [N] is enough. *)
Theorem wait_returns_within_budget env cfg id status code timeout N fuel rq rd tr :
  (forall k, inject_Z (Z.of_nat k) <= wall_clock env (S rd + k) - wall_clock env rd)%Q ->
  (timeout < inject_Z (Z.of_nat N))%Q ->
  (N < fuel)%nat ->
  fst (wait_for_server_status env cfg fuel id status code timeout (mkState rq rd tr))
    <> OutOfFuel /\
  (requests (snd (wait_for_server_status env cfg fuel id status code timeout
                    (mkState rq rd tr))) <= rq + S N)%nat.
Proof.
  intros Hclock Hlate Hfuel. rewrite wait_unfold.
  destruct (wait_loop_anatomy env cfg id status code timeout (wall_clock env rd) fuel
              0 rq (S rd) (tr ++ [Time (wall_clock env rd)]))
    as (n & last & Hn & Hw & _ & Hend & Hrq & Hout).
  assert (Hle : (n <= N)%nat).
  { destruct n as [|n]; [lia|].
    pose proof (still_waiting_round _ _ _ _ _ _ _ _ n Hw (Nat.lt_succ_diag_r n)) as Hp.
    apply pending_within in Hp.
    assert (Hlt : (inject_Z (Z.of_nat n) < inject_Z (Z.of_nat N))%Q).
    { eapply Qle_lt_trans; [|exact Hlate].
      eapply Qle_trans; [apply Hclock | exact Hp]. }
    rewrite <- Zlt_Qlt in Hlt. lia. }
  split.
  - intros H. specialize (Hout H). lia.
  - rewrite Hrq. destruct Hend; cbn; lia.
Qed.

Lemma wait_returns_within_budget_witness :
  fst (wait_for_server_status Samples.stuck Samples.cfg 302 "42" "off" 200 300
         (mkState 2 0 []))
    <> OutOfFuel /\
  (requests (snd (wait_for_server_status Samples.stuck Samples.cfg 302 "42" "off" 200 300
                    (mkState 2 0 []))) <= 2 + 302)%nat.
Proof.
  apply (wait_returns_within_budget Samples.stuck Samples.cfg "42" "off" 200 300 301 302
           2 0 []).
  - intros k. unfold Samples.stuck, Samples.ticking. cbn [wall_clock].
    unfold Qminus, Qle. cbn. lia.
  - reflexivity.
  - lia.
Defined.

(** ** What a run sends *)

Lemma posts_of_app tr1 tr2 : posts_of (tr1 ++ tr2) = posts_of tr1 ++ posts_of tr2.
Proof.
  induction tr1 as [|e tr1 IH]; [reflexivity|].
  destruct e as [| | | |rq rp| |]; cbn; rewrite ?IH; try reflexivity.
  now destruct (rq_method rq).
Qed.

Lemma posts_of_quiet cfg id evs : Forall (quiet cfg id) evs -> posts_of evs = [].
Proof.
  induction 1 as [|e evs He _ IH]; [reflexivity|].
  destruct e as [| | | |rq rp| |]; cbn; rewrite ?IH; try reflexivity.
  cbn in He. now subst rq.
Qed.

(** X3. A run sends at most two POSTs: at most one poweroff, at most one
    change of type, and the poweroff first.  No other action (poweron,
    reboot) is ever requested and none is repeated. *)
Theorem posts_of_run env cfg fuel :
  let poweroff := action_request cfg (server_id cfg) "poweroff" in
  let change_type :=
    change_type_request cfg (server_id cfg) (server_type cfg) (upgrade_disk cfg) in
  In (posts_of (trace (snd (run env cfg fuel))))
     [[]; [poweroff]; [change_type]; [poweroff; change_type]].
Proof.
  intros poweroff change_type.
  pose proof (main_runs env cfg fuel) as R.
  destruct R; open_phases;
    repeat (progress
              (rewrite ?posts_of_app;
               cbn [app posts_of rq_method action_request change_type_request
                    get_request];
               repeat (rewrite (posts_of_quiet cfg (server_id cfg)) by assumption)));
    cbn; auto 6.
Qed.

Section OwnRequests.
Variable cfg : Settings.

Let fetch := get_request cfg (server_id cfg).
Let poweroff := action_request cfg (server_id cfg) "poweroff".
Let change_type :=
  change_type_request cfg (server_id cfg) (server_type cfg) (upgrade_disk cfg).

Lemma quiet_in id evs rq rp :
  Forall (quiet cfg id) evs -> In (Http rq rp) evs -> rq = get_request cfg id.
Proof.
  intros H Hin. exact (proj1 (List.Forall_forall _ _) H _ Hin).
Qed.

Ltac find_request Hin :=
  repeat (rewrite List.in_app_iff in Hin || cbn [In] in Hin);
  repeat match goal with
  | H : _ \/ _ |- _ => destruct H as [H|H]
  end;
  match goal with
  | H : False |- _ => destruct H
  | H : _ = Http _ _ |- _ =>
      first [discriminate H | injection H as <- <-; cbv zeta; auto]
  | Hq : Forall (quiet _ ?id) ?evs, H : In (Http _ _) ?evs |- _ =>
      apply (quiet_in id evs _ _ Hq) in H; subst; cbv zeta; auto
  end.

Lemma requests_in_runs o tr rq rp :
  Run cfg o tr -> In (Http rq rp) tr ->
  rq = fetch \/ rq = poweroff \/ rq = change_type.
Proof.
  intros R Hin. unfold fetch, poweroff, change_type.
  destruct R; open_phases; cbn [app] in Hin; find_request Hin.
Qed.

End OwnRequests.

Lemma append_empty s : s +:+ "" = s.
Proof.
  induction s as [|c s IH]; [reflexivity|].
  change (String c (s +:+ "") = String c s). now rewrite IH.
Qed.

(** X4. Every request of every run is one of three: the fetch of the
    configured server, its poweroff, its change of type to the configured
    type.  So every request goes to [/servers/<server_id>] of the
    provider's API, or to its [actions/poweroff] or [actions/change_type],
    and carries the bearer token and the JSON content type. *)
Theorem requests_of_run env cfg fuel rq rp :
  In (Http rq rp) (trace (snd (run env cfg fuel))) ->
  (rq = get_request cfg (server_id cfg) \/
   rq = action_request cfg (server_id cfg) "poweroff" \/
   rq = change_type_request cfg (server_id cfg) (server_type cfg) (upgrade_disk cfg)) /\
  rq_headers rq = [("Authorization", "Bearer " +:+ api_key cfg);
                   ("Content-Type", "application/json")] /\
  exists suffix,
    rq_url rq = "https://api.hetzner.cloud/v1/servers/" +:+ server_id cfg +:+ suffix /\
    In suffix [""; "/actions/poweroff"; "/actions/change_type"].
Proof.
  intros Hin.
  pose proof (requests_in_runs cfg _ _ rq rp (main_runs env cfg fuel) Hin) as H.
  split; [exact H|].
  destruct H as [-> | [-> | ->]]; (split; [reflexivity|]).
  - exists "". split; [|cbn; auto].
    cbn [get_request rq_url]. unfold base_url. cbn [String.append].
    now rewrite append_empty.
  - exists "/actions/poweroff". split; [|cbn; auto]. reflexivity.
  - exists "/actions/change_type". split; [|cbn; auto]. reflexivity.
Qed.

Lemma requests_of_run_witness :
  let rq := action_request Samples.cfg "42" "poweroff" in
  (rq = get_request Samples.cfg "42" \/
   rq = action_request Samples.cfg "42" "poweroff" \/
   rq = change_type_request Samples.cfg "42" "cpx21" false) /\
  rq_headers rq = [("Authorization", "Bearer " +:+ "secret");
                   ("Content-Type", "application/json")] /\
  exists suffix,
    rq_url rq = "https://api.hetzner.cloud/v1/servers/" +:+ "42" +:+ suffix /\
    In suffix [""; "/actions/poweroff"; "/actions/change_type"].
Proof.
  apply (requests_of_run Samples.refusing Samples.cfg 3
           (action_request Samples.cfg "42" "poweroff") Samples.unprocessable).
  vm_compute. auto 6.
Defined.

(** ** The confirmation gate, from both sides *)

Lemma declined_run env cfg fuel a :
  operator env = Some a ->
  lower a <> "y" ->
  run env cfg fuel
  = (Exit 1 "Aborted.",
     mkState 0 0 [Print intro_line; Input (confirmation_prompt cfg) (Some a)]).
Proof.
  intros Ho Hn.
  unfold run, main, input, print, sys_exit, emit, bind, init.
  cbn [requests reads trace app]. rewrite Ho.
  apply String.eqb_neq in Hn. now rewrite Hn.
Qed.

Lemma run_confirmed_fetches env cfg fuel a :
  operator env = Some a ->
  lower a = "y" ->
  exists rest,
    trace (snd (run env cfg fuel))
    = Print intro_line :: Input (confirmation_prompt cfg) (Some a) ::
      Http (get_request cfg (server_id cfg)) (provider env 0) :: rest.
Proof.
  intros Ho Hy. unfold run, main. fold (resize_phase env cfg fuel).
  unfold server_is_running, get_server, requests_get, http, input,
    json_server_status, sys_exit, print, emit, bind, ret, raise, init.
  cbn [requests reads trace app]. rewrite Ho, Hy.
  cbn [String.eqb Ascii.eqb Bool.eqb negb requests reads trace app].
  destruct (provider env 0) as [r|]; [|eexists; reflexivity].
  destruct (status_code r =? 200)%Z; cbn [requests reads trace app fst snd];
    [|eexists; reflexivity].
  destruct (server_status r) as [s|]; [|eexists; reflexivity].
  destruct (String.eqb s "running"); cbn [requests reads trace app fst snd].
  - match goal with
    | |- context [stop_server env cfg fuel ?i ?st1] =>
        destruct (stop_server_runs env cfg fuel st1) as (evs & Htr & _);
        destruct (stop_server env cfg fuel i st1) as [[[]|c m|e|] st2]
    end; cbn [fst snd trace requests reads negb] in *;
      try (rewrite Htr; cbn [app]; eexists; reflexivity).
    match goal with
    | |- context [resize_phase env cfg fuel ?st1] =>
        destruct (resize_phase_runs env cfg fuel st1) as (evs' & Htr' & _);
        destruct (resize_phase env cfg fuel st1) as [o st3]
    end; cbn [fst snd trace requests reads] in *.
    rewrite Htr', Htr. cbn [app]. eexists. reflexivity.
  - match goal with
    | |- context [resize_phase env cfg fuel ?st1] =>
        destruct (resize_phase_runs env cfg fuel st1) as (evs' & Htr' & _);
        destruct (resize_phase env cfg fuel st1) as [o st3]
    end; cbn [fst snd trace requests reads] in *.
    rewrite Htr'. cbn [app]. eexists. reflexivity.
Qed.

(** X5. The script sends a request, any request, exactly when the
    operator's answer at the prompt is ["y"] or ["Y"]: ["yes"], ["y "]
    with a trailing blank or an empty line all abort the run before the
    first fetch. *)
Theorem requests_exactly_after_yes env cfg fuel a :
  operator env = Some a ->
  (exists rq rp, In (Http rq rp) (trace (snd (run env cfg fuel)))) <->
  (a = "y" \/ a = "Y").
Proof.
  intros Ho. rewrite <- lower_y. split.
  - intros (rq & rp & Hin).
    destruct (String.eqb (lower a) "y") eqn:E; [now apply String.eqb_eq|].
    apply String.eqb_neq in E.
    rewrite (declined_run env cfg fuel a Ho E) in Hin.
    destruct Hin as [H|[H|[]]]; discriminate H.
  - intros Hy.
    destruct (run_confirmed_fetches env cfg fuel a Ho Hy) as (rest & ->).
    do 2 eexists. right. right. left. reflexivity.
Qed.

Lemma requests_exactly_after_yes_witness :
  (exists rq rp,
     In (Http rq rp) (trace (snd (run (Samples.cooperative "yes") Samples.cfg 3)))) <->
  ("yes" = "y" \/ "yes" = "Y").
Proof.
  apply (requests_exactly_after_yes (Samples.cooperative "yes") Samples.cfg 3 "yes").
  reflexivity.
Defined.

(** ** Failures on the way *)

(** X6. When the operator confirms and the first status fetch is answered
    with a code other than 200, the run prints the error report and
    ["Error occurred while checking server's running status."], and ends
    with [sys.exit("Aborted.")], exit status 1, after that single
    request: nothing was stopped or resized. *)
Theorem failed_status_check_aborts env cfg fuel a r :
  operator env = Some a ->
  lower a = "y" ->
  provider env 0 = Responded r ->
  status_code r <> 200%Z ->
  run env cfg fuel
  = (Exit 1 "Aborted.",
     mkState 1 0
       [Print intro_line;
        Input (confirmation_prompt cfg) (Some a);
        Http (get_request cfg (server_id cfg)) (Responded r);
        Print (error_report r);
        Print "Error occurred while checking server's running status."]) /\
  exit_status (fst (run env cfg fuel)) = Some 1%Z.
Proof.
  intros Ho Hy Hp Hc. apply Z.eqb_neq in Hc.
  assert (E : run env cfg fuel
              = (Exit 1 "Aborted.",
                 mkState 1 0
                   [Print intro_line;
                    Input (confirmation_prompt cfg) (Some a);
                    Http (get_request cfg (server_id cfg)) (Responded r);
                    Print (error_report r);
                    Print "Error occurred while checking server's running status."])).
  { unfold run, main, server_is_running, get_server, requests_get, http, input,
      json_server_status, sys_exit, print, emit, bind, ret, raise, init.
    cbn [requests reads trace app]. rewrite Ho, Hy.
    cbn [String.eqb Ascii.eqb Bool.eqb negb requests reads trace app].
    rewrite Hp, Hc. reflexivity. }
  rewrite E. auto.
Qed.

Lemma failed_status_check_aborts_witness :
  let r := mkResponse 503 "Service Unavailable" None in
  run MoreSamples.down Samples.cfg 3
  = (Exit 1 "Aborted.",
     mkState 1 0
       [Print intro_line;
        Input (confirmation_prompt Samples.cfg) (Some "y");
        Http (get_request Samples.cfg "42") (Responded r);
        Print (error_report r);
        Print "Error occurred while checking server's running status."]) /\
  exit_status (fst (run MoreSamples.down Samples.cfg 3)) = Some 1%Z.
Proof.
  apply (failed_status_check_aborts MoreSamples.down Samples.cfg 3 "y"
           (mkResponse 503 "Service Unavailable" None)); try reflexivity.
  cbn. lia.
Defined.

Lemma posts_of_poll_rounds env cfg id n : forall rq rd spin,
  posts_of (poll_rounds env cfg id rq rd spin n) = [].
Proof.
  induction n as [|n IH]; intros rq rd spin; [reflexivity|].
  cbn [poll_rounds poll_round app posts_of get_request rq_method]. apply IH.
Qed.

Lemma posts_of_wait_events env cfg id rq rd n last :
  posts_of (wait_events env cfg id rq rd n last) = posts_of last.
Proof.
  unfold wait_events. cbn [posts_of].
  now rewrite posts_of_app, posts_of_poll_rounds.
Qed.

(** X7. The operator confirms, the server is found running and the
    poweroff is accepted; after [n] rounds of the wait for [off] a fetch
    is answered with a code other than 200.  Then the run prints the
    error report and ["Failed to stop server."] and ends with
    [sys.exit("Aborted.")], exit status 1; the poweroff is the only POST
    it sent, so the server, possibly stopped by now, is left unresized. *)
Theorem failed_fetch_while_stopping_aborts env cfg fuel a n r :
  operator env = Some a ->
  lower a = "y" ->
  reports env "running" 200 0 = true ->
  accepts env 1 = true ->
  still_waiting env "off" 200 300 (wall_clock env 0) 2 1 n = true ->
  provider env (2 + n) = Responded r ->
  status_code r <> 200%Z ->
  (n < fuel)%nat ->
  exists before,
    run env cfg fuel
    = (Exit 1 "Aborted.",
       mkState (3 + n) (1 + n)
         (before ++ [Http (get_request cfg (server_id cfg)) (Responded r);
                     Print (error_report r);
                     Print "Failed to stop server."])) /\
    exit_status (fst (run env cfg fuel)) = Some 1%Z /\
    posts_of (trace (snd (run env cfg fuel)))
      = [action_request cfg (server_id cfg) "poweroff"].
Proof.
  intros Ho Hy Hr Ha Hw Hp Hc Hf.
  pose proof (main_stopping env cfg fuel a Ho Hy Hr Ha) as E.
  rewrite (wait_abandons env cfg (server_id cfg) "off" 200 300 n fuel 2 0 _ r) in E
    by assumption.
  cbn [requests reads trace] in E.
  exists ([Print intro_line;
           Input (confirmation_prompt cfg) (Some a);
           Http (get_request cfg (server_id cfg)) (provider env 0);
           Print "Server is currently running.";
           Http (action_request cfg (server_id cfg) "poweroff") (provider env 1);
           Print "Server stopping..."] ++
          wait_events env cfg (server_id cfg) 2 0 n []).
  rewrite E. cbn [fst snd trace exit_status]. repeat split.
  - f_equal. f_equal. unfold wait_events. rewrite <- !app_assoc. cbn [app].
    now rewrite <- !app_assoc.
  - rewrite !posts_of_app, posts_of_wait_events. reflexivity.
Qed.

Lemma failed_fetch_while_stopping_aborts_witness :
  exists before,
    run MoreSamples.down_while_stopping Samples.cfg 5
    = (Exit 1 "Aborted.",
       mkState 4 2
         (before ++ [Http (get_request Samples.cfg "42")
                       (Responded (mkResponse 503 "Service Unavailable" None));
                     Print (error_report (mkResponse 503 "Service Unavailable" None));
                     Print "Failed to stop server."])) /\
    exit_status (fst (run MoreSamples.down_while_stopping Samples.cfg 5)) = Some 1%Z /\
    posts_of (trace (snd (run MoreSamples.down_while_stopping Samples.cfg 5)))
      = [action_request Samples.cfg "42" "poweroff"].
Proof.
  apply (failed_fetch_while_stopping_aborts MoreSamples.down_while_stopping
           Samples.cfg 5 "y" 1 (mkResponse 503 "Service Unavailable" None));
    try reflexivity.
  - cbn. lia.
  - lia.
Defined.

(** A confirmed run that gets to the change of type goes on with the
    rest of [main] from there. *)
Lemma arrival_resize env cfg fuel a rq rd sent :
  operator env = Some a ->
  lower a = "y" ->
  Arrival env cfg fuel rq rd sent ->
  exists pre,
    run env cfg fuel = resize_phase env cfg fuel (mkState rq rd pre) /\
    posts_of pre = sent.
Proof.
  intros Ho Hy [r s Hp Hc Hs Hn | n Hr Ha Hw Hoff Hf].
  - eexists. split.
    + exact (main_not_running env cfg fuel a r s Ho Hy Hp Hc Hs Hn).
    + reflexivity.
  - pose proof (main_stopping env cfg fuel a Ho Hy Hr Ha) as E.
    rewrite (wait_succeeds env cfg (server_id cfg) "off" 200 300 n fuel 2 0) in E
      by assumption.
    cbn [requests reads trace] in E.
    eexists. split; [exact E|].
    rewrite !posts_of_app, posts_of_wait_events. reflexivity.
Qed.

(** X8. The operator confirms and the run gets to the change of type,
    either because the server was found in a state other than running
    or because the script stopped it first; the change is accepted, the
    wait for [running] goes through [n] rounds, and in the next one the
    clock shows more than 300 s since the wait began.  Then the run
    prints the timeout message and ends with
    [sys.exit("Failed to restart rescaled server.")], exit status 1; the
    change of type is the last POST of the run, after the poweroff if
    there was one: it is not undone and nothing else is attempted. *)
Theorem boot_timeout_fails env cfg fuel a rq rd sent n :
  operator env = Some a ->
  lower a = "y" ->
  Arrival env cfg fuel rq rd sent ->
  accepts env rq = true ->
  still_waiting env "running" 200 300 (wall_clock env rd) (S rq) (S rd) n = true ->
  overdue env "running" 200 300 (wall_clock env rd) (S rq + n) (S rd + n) = true ->
  (n < fuel)%nat ->
  exists before,
    run env cfg fuel
    = (Exit 1 "Failed to restart rescaled server.",
       mkState (2 + rq + n) (2 + rd + n)
         (before ++ [Print "Timed out waiting for server status change."])) /\
    exit_status (fst (run env cfg fuel)) = Some 1%Z /\
    posts_of (trace (snd (run env cfg fuel)))
      = sent ++ [change_type_request cfg (server_id cfg) (server_type cfg)
                   (upgrade_disk cfg)].
Proof.
  intros Ho Hy Harr Ha Hw Hov Hf.
  destruct (arrival_resize env cfg fuel a rq rd sent Ho Hy Harr) as (pre & E & Hposts).
  rewrite resize_phase_accepted in E by exact Ha.
  rewrite (wait_times_out env cfg (server_id cfg) "running" 200 300 n fuel (S rq) rd)
    in E by assumption.
  exists (pre ++
          [Http (change_type_request cfg (server_id cfg) (server_type cfg)
                   (upgrade_disk cfg)) (provider env rq);
           Print (started_line cfg);
           Print "Waiting for server to boot."] ++
          wait_events env cfg (server_id cfg) (S rq) rd n
            [Http (get_request cfg (server_id cfg)) (provider env (S rq + n));
             Time (wall_clock env (S rd + n))]).
  rewrite E. cbn [fst snd trace exit_status]. repeat split.
  - f_equal. f_equal. unfold wait_events. rewrite <- !app_assoc. cbn [app].
    now rewrite <- !app_assoc.
  - rewrite !posts_of_app, posts_of_wait_events, Hposts. cbn.
    now rewrite app_nil_r.
Qed.

Lemma boot_timeout_fails_witness :
  (exists before,
     run MoreSamples.stopped_never_boots Samples.cfg 5
     = (Exit 1 "Failed to restart rescaled server.",
        mkState 6 4
          (before ++ [Print "Timed out waiting for server status change."])) /\
     exit_status (fst (run MoreSamples.stopped_never_boots Samples.cfg 5)) = Some 1%Z /\
     posts_of (trace (snd (run MoreSamples.stopped_never_boots Samples.cfg 5)))
       = [action_request Samples.cfg "42" "poweroff";
          change_type_request Samples.cfg "42" "cpx21" false]) /\
  (exists before,
     run MoreSamples.never_boots Samples.cfg 5
     = (Exit 1 "Failed to restart rescaled server.",
        mkState 4 3
          (before ++ [Print "Timed out waiting for server status change."])) /\
     exit_status (fst (run MoreSamples.never_boots Samples.cfg 5)) = Some 1%Z /\
     posts_of (trace (snd (run MoreSamples.never_boots Samples.cfg 5)))
       = [change_type_request Samples.cfg "42" "cpx21" false]).
Proof.
  split.
  - apply (boot_timeout_fails MoreSamples.stopped_never_boots Samples.cfg 5 "y"
             3 1 [action_request Samples.cfg "42" "poweroff"] 1);
      try reflexivity.
    + apply (stopped_first MoreSamples.stopped_never_boots Samples.cfg 5 0);
        try reflexivity.
      lia.
    + lia.
  - apply (boot_timeout_fails MoreSamples.never_boots Samples.cfg 5 "y" 1 0 [] 1);
      try reflexivity.
    + apply (found_not_running MoreSamples.never_boots Samples.cfg 5
               (mkResponse 200 "{...}" (Some "off")) "off");
        try reflexivity.
      discriminate.
    + lia.
Defined.

(** ** When the type is changed, and what a normal exit means *)

Section ResizeGuard.
Variable cfg : Settings.

Let fetch := get_request cfg (server_id cfg).
Let poweroff := action_request cfg (server_id cfg) "poweroff".
Let change_type :=
  change_type_request cfg (server_id cfg) (server_type cfg) (upgrade_disk cfg).

(** The last phase sends its POST first, whatever the reply. *)
Lemma resizing_starts o evs pre rq rp post :
  Resizing cfg o evs ->
  evs = pre ++ Http rq rp :: post ->
  rq_method rq = POST ->
  pre = [].
Proof.
  intros R H Hm. destruct R; locate H Hm; auto.
Qed.

Lemma resize_guarded_in_runs o tr pre rp post :
  Run cfg o tr ->
  tr = pre ++ Http change_type rp :: post ->
  cleared cfg pre.
Proof.
  intros R H.
  assert (Hm : rq_method change_type = POST) by reflexivity.
  destruct R;
    repeat match goal with
           | S : Stopping _ _ _ |- _ => inversion S; clear S; subst
           end;
    rewrite <- ?app_assoc in H; locate H Hm;
    try (apply (f_equal (fun e => match e with
                                  | Http rq _ => rq_json rq
                                  | _ => None
                                  end)) in Hx; discriminate Hx);
    match goal with
    | Rz : Resizing _ _ ?evs, E : ?evs = _ ++ _ :: _ |- _ =>
        rewrite (resizing_starts _ _ _ _ _ _ Rz E Hm)
    end.
  - left. exists a, r, s. auto.
  - right.
    match goal with
    | Hobs : observed _ _ _ _ _ |- _ => destruct Hobs as (mid & r' & -> & ? & ?)
    end.
    exists (Print intro_line :: Input (confirmation_prompt cfg) (Some a) ::
            Http fetch (Responded r) :: Print "Server is currently running." ::
            Http poweroff (Responded r0) :: Print "Server stopping..." :: mid), r'.
    cbn [app]. rewrite <- ?app_assoc. cbn [app]. auto.
Qed.

Lemma normal_exit_in_runs o tr :
  Run cfg o tr ->
  o = Ret tt ->
  exists before r mid r',
    tr = before ++
         [Http change_type (Responded r); Print (started_line cfg);
          Print "Waiting for server to boot."] ++
         mid ++
         [Http fetch (Responded r'); Write (backspace +:+ " " +:+ newline);
          Print "Rescaled server now accessible"] /\
    status_code r = 201%Z /\
    status_code r' = 200%Z /\ server_status r' = Some "running".
Proof.
  intros R Ho. destruct R; try discriminate Ho.
  - match goal with Rz : Resizing _ _ _ |- _ => inversion Rz; subst end;
      try discriminate.
    match goal with
    | Hobs : observed _ _ _ _ _ |- _ => destruct Hobs as (mid & r' & -> & ? & ?)
    end.
    match goal with
    | |- exists before r0 mid0 r0', ?pre ++ [Http _ (Responded ?rr); _; _] ++ _ = _ /\ _ =>
        exists pre, rr, mid, r'
    end.
    split; [|auto]. now rewrite <- !app_assoc.
  - match goal with o0 : Outcome bool |- _ => destruct o0; discriminate Ho end.
  - match goal with Rz : Resizing _ _ _ |- _ => inversion Rz; subst end;
      try discriminate.
    match goal with
    | Hobs : observed _ _ "running" _ _ |- _ =>
        destruct Hobs as (mid & r' & -> & ? & ?)
    end.
    match goal with
    | |- exists before r0 mid0 r0',
           ?pre ++ ?evs ++ [Http _ (Responded ?rr); _; _] ++ _ = _ /\ _ =>
        exists (pre ++ evs), rr, mid, r'
    end.
    split; [|auto]. now rewrite <- !app_assoc.
Qed.

Lemma exits_in_runs o tr :
  Run cfg o tr ->
  (forall c msg, o = Exit c msg ->
     c = 1%Z /\ (msg = "Aborted." \/ msg = "Failed to restart rescaled server.")) /\
  (forall c, exit_status o = Some c -> c = 0%Z \/ c = 1%Z).
Proof.
  intros R. destruct R; open_phases; cbn [stop_ends exit_status];
    (split; [intros c msg E; try discriminate E; injection E as <- <-; auto
            |intros c E; try discriminate E; injection E as <-; auto]).
Qed.

End ResizeGuard.

(** X9. The change of type is requested only when the script has seen
    the server not running: either the status fetch of the run was
    answered with code 200 and a status other than ["running"], and the
    request follows the report of it; or a fetch of the wait for [off]
    was answered with code 200 and status ["off"], and the request comes
    right after the 5 s settle pause that follows it. *)
Theorem resize_only_when_seen_stopped env cfg fuel pre rp post :
  trace (snd (run env cfg fuel))
    = pre ++ Http (change_type_request cfg (server_id cfg) (server_type cfg)
                     (upgrade_disk cfg)) rp :: post ->
  cleared cfg pre.
Proof.
  intros H. exact (resize_guarded_in_runs cfg _ _ pre rp post (main_runs env cfg fuel) H).
Qed.

Lemma resize_only_when_seen_stopped_witness :
  cleared Samples.cfg (firstn 4 (trace (snd (run Samples.already_off Samples.cfg 4)))).
Proof.
  apply (resize_only_when_seen_stopped Samples.already_off Samples.cfg 4
           (firstn 4 (trace (snd (run Samples.already_off Samples.cfg 4))))
           Samples.accepted
           (skipn 5 (trace (snd (run Samples.already_off Samples.cfg 4))))).
  vm_compute. reflexivity.
Defined.

(** X10. No silent success: a run that ends normally (exit status 0) has
    had its change of type answered with code 201, and has ended on a
    fetch answered with code 200 and status ["running"], followed by the
    message ["Rescaled server now accessible"]. *)
Theorem normal_exit_means_resized env cfg fuel :
  fst (run env cfg fuel) = Ret tt ->
  exists before r mid r',
    trace (snd (run env cfg fuel))
    = before ++
      [Http (change_type_request cfg (server_id cfg) (server_type cfg)
               (upgrade_disk cfg)) (Responded r);
       Print (started_line cfg);
       Print "Waiting for server to boot."] ++
      mid ++
      [Http (get_request cfg (server_id cfg)) (Responded r');
       Write (backspace +:+ " " +:+ newline);
       Print "Rescaled server now accessible"] /\
    status_code r = 201%Z /\
    status_code r' = 200%Z /\ server_status r' = Some "running".
Proof.
  intros H. exact (normal_exit_in_runs cfg _ _ (main_runs env cfg fuel) H).
Qed.

Lemma normal_exit_means_resized_witness :
  exists before r mid r',
    trace (snd (run (Samples.cooperative "y") Samples.cfg 3))
    = before ++
      [Http (change_type_request Samples.cfg "42" "cpx21" false) (Responded r);
       Print (started_line Samples.cfg);
       Print "Waiting for server to boot."] ++
      mid ++
      [Http (get_request Samples.cfg "42") (Responded r');
       Write (backspace +:+ " " +:+ newline);
       Print "Rescaled server now accessible"] /\
    status_code r = 201%Z /\
    status_code r' = 200%Z /\ server_status r' = Some "running".
Proof.
  apply (normal_exit_means_resized (Samples.cooperative "y") Samples.cfg 3).
  reflexivity.
Defined.

(** X11. Whatever happens, a run of [main] ends the process with status
    0 or 1, and when it ends by [sys.exit] the status is 1 and the
    message is ["Aborted."] or ["Failed to restart rescaled server."]. *)
Theorem exit_statuses env cfg fuel :
  (forall c msg, fst (run env cfg fuel) = Exit c msg ->
     c = 1%Z /\ (msg = "Aborted." \/ msg = "Failed to restart rescaled server.")) /\
  (forall c, exit_status (fst (run env cfg fuel)) = Some c -> c = 0%Z \/ c = 1%Z).
Proof. exact (exits_in_runs cfg _ _ (main_runs env cfg fuel)). Qed.

(** ** Loading the settings *)

(** X13. The server type the script works with is the one given on the
    command line, else ["cpx11"]; it is always one of the five offered
    types, and a [server_type] written in the configuration file has no
    effect. *)
Theorem server_type_from_command_line config_read cl st :
  load config_read cl = Ret st ->
  server_type st = default "cpx11" (cl_server_type cl) /\
  In (server_type st) ["cpx11"; "cpx21"; "cpx31"; "cpx41"; "cpx51"].
Proof.
  intros H. apply load_inv in H as (args & config & Hp & _ & _ & _ & Ht & _).
  rewrite Ht. clear Ht. unfold parse_args in Hp.
  destruct (cl_server_type cl) as [ty|].
  - destruct (existsb (String.eqb ty) server_type_choices) eqn:E; [|discriminate].
    injection Hp as <-. cbn [a_server_type default]. split; [reflexivity|].
    apply existsb_exists in E as (t & Hin & Ht).
    apply String.eqb_eq in Ht. now subst t.
  - injection Hp as <-. cbn. auto.
Qed.

Lemma server_type_from_command_line_witness :
  server_type (mkSettings "cli-key" "42" "cpx11" false)
    = default "cpx11" (cl_server_type MoreConfigSamples.key_and_id) /\
  In (server_type (mkSettings "cli-key" "42" "cpx11" false))
     ["cpx11"; "cpx21"; "cpx31"; "cpx41"; "cpx51"] /\
  config_get ConfigSamples.hetzner "hetzner" "server_type" = inr "cpx51".
Proof.
  destruct (server_type_from_command_line ConfigSamples.files MoreConfigSamples.key_and_id
              (mkSettings "cli-key" "42" "cpx11" false)) as [H1 H2].
  - vm_compute. reflexivity.
  - split; [exact H1|]. split; [exact H2|]. vm_compute. reflexivity.
Defined.

(** X16. With [--upgrade_disk] on the command line the script never asks
    the library for the file's [upgrade_disk]: the settings it loads, or
    the failure it ends with, depend on the file only through the
    answers for [api_key] and [server_id], so two files that agree on
    those load alike, whatever they hold for [upgrade_disk], a word that
    is not a boolean included; and when the settings are loaded the
    upgrade is on. *)
Theorem upgrade_flag_skips_file read1 read2 cl c1 c2 :
  cl_upgrade_disk cl = true ->
  read1 (default "config.ini" (cl_config cl)) = inr c1 ->
  read2 (default "config.ini" (cl_config cl)) = inr c2 ->
  config_get c1 "hetzner" "api_key" = config_get c2 "hetzner" "api_key" ->
  config_get c1 "hetzner" "server_id" = config_get c2 "hetzner" "server_id" ->
  load read1 cl = load read2 cl /\
  (forall st, load read1 cl = Ret st -> upgrade_disk st = true).
Proof.
  intros Hu H1 H2 Hk Hi. split.
  - unfold load. destruct (parse_args cl) as [args| | |] eqn:Hp; try reflexivity.
    apply parse_args_config in Hp as (Ec & _ & _ & Eu).
    cbn [and_then]. rewrite Ec, H1, H2. cbn [call and_then].
    rewrite Eu, Hu, Hk, Hi. reflexivity.
  - intros st H. apply load_inv in H as (args & config & Hp & _ & _ & _ & _ & Hb).
    apply parse_args_config in Hp as (_ & _ & _ & Eu).
    rewrite Eu, Hu in Hb. congruence.
Qed.

Lemma upgrade_flag_skips_file_witness :
  load ConfigSamples.files MoreConfigSamples.only_flag
    = load MoreConfigSamples.odd_files MoreConfigSamples.only_flag /\
  (forall st, load ConfigSamples.files MoreConfigSamples.only_flag = Ret st ->
              upgrade_disk st = true) /\
  config_getboolean MoreConfigSamples.odd_flag "hetzner" "upgrade_disk" false
    = inl ValueError.
Proof.
  destruct (upgrade_flag_skips_file ConfigSamples.files MoreConfigSamples.odd_files
              MoreConfigSamples.only_flag ConfigSamples.hetzner
              MoreConfigSamples.odd_flag) as [H1 H2]; try reflexivity.
  split; [exact H1|]. split; [exact H2|]. reflexivity.
Defined.
